(** * fast-django: a FastAPI front end over a Django ORM [User] table

    Shallow embedding of [main.py] (Pydantic schemas, the asynchronous ORM
    wrappers and the HTTP endpoints) and of the [DATABASES] block of
    [config/settings.py], followed by the properties of the CRUD contract.

    Conventions.
    - A Python [str] is a [string]; [String.length] counts its characters.
    - A Python [int] is a [Z]; a timestamp is a [Z] (an instant on the clock).
    - A parsed JSON object, a Python [dict] and [os.environ] are [gmap]s.
    - [await sync_to_async(f)(args)] runs [f args] against the store: the
      [async] functions become computations in a state-and-exception monad
      over the store, and [await] becomes its bind. *)

From stdpp Require Import base option strings list gmap sorting.
From Stdlib Require Import ZArith Lia.

Local Open Scope Z_scope.

(** ** JSON values, as [json.loads] hands them to the framework *)

#[local] Unset Elimination Schemes.
Inductive json : Type :=
| JNull
| JBool (b : bool)
| JNum (n : Z)
| JStr (s : string)
| JList (l : list json)
| JObj (d : gmap string json).
#[local] Set Elimination Schemes.

(** ** Pydantic models *)

(** [Field(..., min_length=1, max_length=100)] on a [str]. *)
Definition min_length : nat := 1.
Definition max_length : nat := 100.

Inductive error_type : Type :=
| missing
| string_type
| string_too_short
| string_too_long
| model_attributes_type.

(** One entry of a [ValidationError]: the field and what is wrong with it. *)
Definition error_details : Type := (string * error_type)%type.

Module UserBase.

Record t : Type := mk { name : string; email : string }.

(** The constraints of one [Field]: a value, if present, must be a
    string whose length is within [min_length .. max_length]. *)
Definition validate_field (loc : string) (v : option json)
  : error_details + string :=
  match v with
  | None => inl (loc, missing)
  | Some (JStr s) =>
      if (String.length s <? min_length)%nat then inl (loc, string_too_short)
      else if (max_length <? String.length s)%nat then inl (loc, string_too_long)
      else inr s
  | Some _ => inl (loc, string_type)
  end.

(** Validation of a request body. Every field is checked and all the
    errors are collected; keys other than the declared fields are not
    looked at (Pydantic's default [extra='ignore']). *)
Definition model_validate (body : json) : list error_details + t :=
  match body with
  | JObj d =>
      match validate_field "name" (d !! "name"),
            validate_field "email" (d !! "email") with
      | inr n, inr e => inr (mk n e)
      | inl en, inr _ => inl [en]
      | inr _, inl ee => inl [ee]
      | inl en, inl ee => inl [en; ee]
      end
  | _ => inl [("body"%string, model_attributes_type)]
  end.

(** [model_dump()]: the declared fields, as keyword arguments. *)
Definition model_dump (u : t) : gmap string string :=
  {[ "name"%string := name u; "email"%string := email u ]}.

(** The constraints again, on a value that already is a string. *)
Definition field_ok (s : string) : bool :=
  negb (String.length s <? min_length)%nat && negb (max_length <? String.length s)%nat.

End UserBase.

(** [class UserCreate(UserBase): pass] *)
Module UserCreate := UserBase.

(** ** The ORM model *)

(** Modelled from the spec: [db_app.models.User], which [main.py] imports
    as [UserModel] and whose declaration is not part of the sources. A row
    has an integer primary key [id], the texts [name] and [email], and the
    timestamp [created_at]. *)
Module UserModel.

Record t : Type :=
  mk { id : Z; name : string; email : string; created_at : Z }.

Definition set_name (v : string) (u : t) : t :=
  mk (id u) v (email u) (created_at u).

Definition set_email (v : string) (u : t) : t :=
  mk (id u) (name u) v (created_at u).

Definition has_pk (pk : Z) (u : t) : bool := id u =? pk.

End UserModel.

(** The response model [class User(UserBase)]: the fields of [UserBase]
    with their constraints, [id: int] and
    [created_at: Optional[datetime] = None]. *)
Module User.

Record t : Type :=
  mk { id : Z; name : string; email : string; created_at : option Z }.

(** [from_attributes = True]: a [User] is read off the attributes of an
    ORM object, and the field constraints are checked once more. *)
Definition from_attributes (u : UserModel.t) : option t :=
  if UserBase.field_ok (UserModel.name u)
     && UserBase.field_ok (UserModel.email u)
  then Some (mk (UserModel.id u) (UserModel.name u) (UserModel.email u)
                (Some (UserModel.created_at u)))
  else None.

End User.

(** ** The store *)

(** Modelled from the spec: the table behind [UserModel.objects]. The rows
    are kept in insertion order, [last_id] is the auto-increment counter
    (the largest [id] handed out so far), and [clock] is the instant the
    store stamps on a row it inserts. *)
Record Store : Type :=
  mkStore { rows : list UserModel.t; last_id : Z; clock : Z }.

Definition empty_store (now : Z) : Store := mkStore [] 0 now.

(** ** Computations over the store that may raise *)

Inductive exn : Type :=
| DoesNotExist
| HTTPException (status_code : Z) (detail : string).

Definition Async (A : Type) : Type := Store → (exn + A) * Store.

#[global] Instance Async_ret : MRet Async :=
  λ A (x : A) s, (inr x, s).

#[global] Instance Async_bind : MBind Async :=
  λ A B (f : A → Async B) (m : Async A) s,
    match m s with
    | (inr x, s') => f x s'
    | (inl e, s') => (inl e, s')
    end.

Definition raise {A : Type} (e : exn) : Async A := λ s, (inl e, s).

(** [try: m except UserModel.DoesNotExist: h] *)
Definition try_except_DoesNotExist {A : Type} (m h : Async A) : Async A :=
  λ s, match m s with
       | (inl DoesNotExist, s') => h s'
       | r => r
       end.

(** ** The manager [UserModel.objects] and the instance methods *)

Module objects.

(** [list(UserModel.objects.all())] *)
Definition all : Async (list UserModel.t) :=
  λ s, (inr (rows s), s).

(** [UserModel.objects.create(name=.., email=..)]: the keyword arguments
    are the dumped fields; the store assigns [id] and [created_at]. *)
Definition create (kwargs : gmap string string) : Async UserModel.t :=
  λ s,
    let user := UserModel.mk (last_id s + 1)
                  (default "" (kwargs !! "name"))
                  (default "" (kwargs !! "email"))
                  (clock s) in
    (inr user, mkStore (rows s ++ [user]) (last_id s + 1) (clock s)).

(** [UserModel.objects.get(pk=..)] *)
Definition get (pk : Z) : Async UserModel.t :=
  λ s, match List.find (UserModel.has_pk pk) (rows s) with
       | Some user => (inr user, s)
       | None => (inl DoesNotExist, s)
       end.

End objects.

(** [user.save()]: an UPDATE of the row with the instance's primary key,
    writing every column from the instance; when no row has that key the
    instance is inserted instead. *)
Definition save (user : UserModel.t) : Async unit :=
  λ s,
    if existsb (UserModel.has_pk (UserModel.id user)) (rows s)
    then (inr (),
          mkStore (map (λ r, if UserModel.has_pk (UserModel.id user) r
                             then user else r) (rows s))
                  (last_id s) (clock s))
    else (inr (),
          mkStore (rows s ++ [user])
                  (Z.max (last_id s) (UserModel.id user)) (clock s)).

(** [user.delete()]: a DELETE of the row with the instance's primary key. *)
Definition delete (user : UserModel.t) : Async unit :=
  λ s, (inr (),
        mkStore (filter (λ r, UserModel.id r ≠ UserModel.id user) (rows s))
                (last_id s) (clock s)).

(** ** Asynchronous ORM wrappers *)

(** Read All *)
Definition get_all_users_db : Async (list UserModel.t) :=
  users ← objects.all;
  mret users.

(** Create *)
Definition create_user_db (user_data : UserCreate.t) : Async UserModel.t :=
  user ← objects.create (UserCreate.model_dump user_data);
  mret user.

(** Read One *)
Definition get_user_db (user_id : Z) : Async (option UserModel.t) :=
  try_except_DoesNotExist
    (user ← objects.get user_id;
     mret (Some user))
    (mret None).

(** Update *)
Definition update_user_db (user_id : Z) (user_data : UserCreate.t)
  : Async (option UserModel.t) :=
  user ← get_user_db user_id;
  match user with
  | None => mret None
  | Some user =>
      let user := UserModel.set_name (UserCreate.name user_data) user in
      let user := UserModel.set_email (UserCreate.email user_data) user in
      save user;;
      mret (Some user)
  end.

(** Delete *)
Definition delete_user_db (user_id : Z) : Async bool :=
  user ← get_user_db user_id;
  match user with
  | None => mret false
  | Some user =>
      delete user;;
      mret true
  end.

(** ** API endpoints *)

Definition create_user (user_in : UserCreate.t) : Async UserModel.t :=
  new_user ← create_user_db user_in;
  mret new_user.

Definition read_users : Async (list UserModel.t) :=
  users ← get_all_users_db;
  mret users.

Definition read_user (user_id : Z) : Async UserModel.t :=
  user ← get_user_db user_id;
  match user with
  | None => raise (HTTPException 404 "User not found")
  | Some user => mret user
  end.

Definition update_user (user_id : Z) (user_in : UserCreate.t)
  : Async UserModel.t :=
  updated_user ← update_user_db user_id user_in;
  match updated_user with
  | None => raise (HTTPException 404 "User not found")
  | Some updated_user => mret updated_user
  end.

Definition delete_user (user_id : Z) : Async unit :=
  success ← delete_user_db user_id;
  if negb success
  then raise (HTTPException 404 "User not found")
  else mret ().

Definition root : Async (string * string) :=
  mret ("message"%string, "FastAPI with Django ORM is running!"%string).

(** ** The routes: what the [@app] decorators wrap around an endpoint *)

Inductive content : Type :=
| content_user (u : User.t)
| content_users (l : list User.t)
| content_empty
| content_detail (detail : string)
| content_errors (errors : list error_details)
| content_message (key value : string)
| content_server_error.

Record Response : Type :=
  mkResponse { status_code : Z; body : content }.

(** A request with a JSON body: the body is validated against the
    parameter's model first, and the endpoint runs only on a valid one. *)
Definition with_body (request_body : json)
    (k : UserCreate.t → Store → Response * Store) : Store → Response * Store :=
  match UserCreate.model_validate request_body with
  | inl errors => λ s, (mkResponse 422 (content_errors errors), s)
  | inr user_in => k user_in
  end.

(** Running an endpoint: its return value goes through the response model
    and gets the route's status code, an [HTTPException] becomes a response
    with its own status code, anything else is a server error. *)
Definition respond {A : Type} (status : Z) (response_model : A → option content)
    (endpoint : Async A) : Store → Response * Store :=
  λ s, match endpoint s with
       | (inr x, s') =>
           match response_model x with
           | Some c => (mkResponse status c, s')
           | None => (mkResponse 500 content_server_error, s')
           end
       | (inl (HTTPException code detail), s') =>
           (mkResponse code (content_detail detail), s')
       | (inl DoesNotExist, s') =>
           (mkResponse 500 content_server_error, s')
       end.

(** [response_model=User] and [response_model=List[User]] *)
Definition response_User (u : UserModel.t) : option content :=
  content_user <$> User.from_attributes u.

Definition response_List_User (l : list UserModel.t) : option content :=
  content_users <$> mapM User.from_attributes l.

Inductive Request : Type :=
| POST_users (request_body : json)
| GET_users
| GET_user (user_id : Z)
| PUT_user (user_id : Z) (request_body : json)
| DELETE_user (user_id : Z)
| GET_root.

Definition app (r : Request) : Store → Response * Store :=
  match r with
  | POST_users request_body =>
      with_body request_body (λ user_in,
        respond 201 response_User (create_user user_in))
  | GET_users =>
      respond 200 response_List_User read_users
  | GET_user user_id =>
      respond 200 response_User (read_user user_id)
  | PUT_user user_id request_body =>
      with_body request_body (λ user_in,
        respond 200 response_User (update_user user_id user_in))
  | DELETE_user user_id =>
      respond 204 (λ _, Some content_empty) (delete_user user_id)
  | GET_root =>
      respond 200 (λ m, Some (content_message m.1 m.2)) root
  end.

(** A run of the service: the requests are served one after the other. *)
Fixpoint serve (rs : list Request) (s : Store) : list Response * Store :=
  match rs with
  | [] => ([], s)
  | r :: rs' =>
      let '(resp, s1) := app r s in
      let '(resps, s2) := serve rs' s1 in
      (resp :: resps, s2)
  end.

(** ** The data-model invariant *)

(** Every row carries a [name] and an [email] within the length bounds. *)
Definition row_ok (u : UserModel.t) : bool :=
  UserBase.field_ok (UserModel.name u) && UserBase.field_ok (UserModel.email u).

(** Every [id] was handed out by the counter. *)
Definition id_ok (s : Store) (u : UserModel.t) : bool :=
  (1 <=? UserModel.id u) && (UserModel.id u <=? last_id s).

Definition ids (s : Store) : list Z := UserModel.id <$> rows s.

Definition store_okb (s : Store) : bool :=
  (0 <=? last_id s)
  && forallb row_ok (rows s) && forallb (id_ok s) (rows s)
  && bool_decide (NoDup (ids s)).

Definition store_ok (s : Store) : Prop := store_okb s = true.

(** ** The clock *)

(** Time passes between requests: the store's clock may show any instant. *)
Definition set_clock (now : Z) (s : Store) : Store :=
  mkStore (rows s) (last_id s) now.

(** One step of the system: a request is served, or time passes. *)
Inductive step : Store → Store → Prop :=
| step_request (r : Request) (s : Store) : step s (app r s).2
| step_clock (now : Z) (s : Store) : step s (set_clock now s).

(** ** What the claims speak about *)

(** The field [k] of a request body; a body that is no object has none. *)
Definition field (request_body : json) (k : string) : option json :=
  match request_body with
  | JObj d => d !! k
  | _ => None
  end.

(** "of length 1-100" *)
Definition in_bounds (v : string) : Prop :=
  (1 ≤ String.length v ≤ 100)%nat.

(** "missing, empty, or longer than 100 characters" *)
Definition rejected (request_body : json) (k : string) : Prop :=
  field request_body k = None
  ∨ ∃ v, field request_body k = Some (JStr v)
         ∧ (String.length v = 0 ∨ 100 < String.length v)%nat.

(** "a record with that id exists in the store" *)
Definition exists_id (user_id : Z) (s : Store) : Prop :=
  ∃ u, u ∈ rows s ∧ UserModel.id u = user_id.

(** The serialised form of a row. *)
Definition to_User (u : UserModel.t) : User.t :=
  User.mk (UserModel.id u) (UserModel.name u) (UserModel.email u)
          (Some (UserModel.created_at u)).

(** The row an update leaves in place of [u]. *)
Definition overwrite (user_in : UserCreate.t) (u : UserModel.t) : UserModel.t :=
  UserModel.mk (UserModel.id u) (UserCreate.name user_in)
               (UserCreate.email user_in) (UserModel.created_at u).

Definition not_found : Response :=
  mkResponse 404 (content_detail "User not found").

(** One step neither lowers the counter nor produces, under an id the
    counter has passed, anything but a record that was there under that id
    with that [created_at]. *)
Definition keeps (s s' : Store) : Prop :=
  last_id s ≤ last_id s'
  ∧ ∀ u', u' ∈ rows s' → UserModel.id u' ≤ last_id s →
      ∃ u, u ∈ rows s
           ∧ UserModel.id u = UserModel.id u'
           ∧ UserModel.created_at u = UserModel.created_at u'.

(** ** [config/settings.py]: the database configuration *)

Module settings.

(** A resolved [pathlib.Path]: its components below the root. *)
Definition Path : Type := list string.

(** [p.parent]; the root is its own parent. *)
Definition parent (p : Path) : Path := removelast p.

(** [p / c] *)
Definition joinpath (p : Path) (c : string) : Path := p ++ [c].

(** One entry of [DATABASES]. [NAME] is a string from the environment or
    a path built from [BASE_DIR]; the last four may be [None]. *)
Record database : Type :=
  mkDatabase {
    ENGINE : string;
    NAME : string + Path;
    USER : option string;
    PASSWORD : option string;
    HOST : option string;
    PORT : option string
  }.

Section Settings.

(** [Path(__file__).resolve()], the location of [settings.py]. *)
Variable file : Path.
(** The variables each [.env] file defines (none if there is no file). *)
Variable dotenv_values : Path → gmap string string.
(** [os.environ] when the module is imported. *)
Variable environ : gmap string string.

Definition BASE_DIR : Path := parent (parent file).

(** [load_dotenv(path)]: the variables of the file are added to the
    environment; a variable that is already set keeps its value. *)
Definition load_dotenv (path : Path) : gmap string string :=
  environ ∪ dotenv_values path.

(** The environment the rest of the module reads. *)
Definition os_environ : gmap string string :=
  load_dotenv (joinpath BASE_DIR ".env").

(** [os.getenv(key)] and [os.getenv(key, default)] *)
Definition getenv (key : string) : option string := os_environ !! key.

Definition getenv_default {A : Type} (inject : string → A)
    (key : string) (dflt : A) : A :=
  from_option inject dflt (os_environ !! key).

Definition DATABASES : gmap string database :=
  {[ "default"%string :=
       mkDatabase
         (getenv_default (λ v, v) "DB_ENGINE" "django.db.backends.sqlite3")
         (getenv_default inl "DB_NAME" (inr (joinpath BASE_DIR "db.sqlite3")))
         (getenv "DB_USER")
         (getenv "DB_PASSWORD")
         (getenv "DB_HOST")
         (getenv "DB_PORT") ]}.

(** The value the process sees for a variable: its own environment
    first, the project's [.env] file second. *)
Definition variable (key : string) : option string :=
  match environ !! key with
  | Some v => Some v
  | None => dotenv_values (BASE_DIR ++ [".env"%string]) !! key
  end.

(** [SECRET_KEY = os.getenv('DJANGO_SECRET_KEY', <fallback>)] *)
Definition SECRET_KEY : string :=
  getenv_default (λ v, v) "DJANGO_SECRET_KEY"
    "django-insecure-fallback-key-for-orm-only".

(** [DEBUG = os.getenv('DEBUG', 'False') == 'True'] *)
Definition DEBUG : bool :=
  String.eqb (getenv_default (λ v, v) "DEBUG" "False") "True".

End Settings.

End settings.

(** ** Further vocabulary *)

(** The rows come in ascending order of their [id]. *)
Definition ascending (s : Store) : Prop := StronglySorted Z.lt (ids s).

(** A body the request model accepts. *)
Definition valid_body (request_body : json) : Prop :=
  ∃ n e, field request_body "name" = Some (JStr n)
         ∧ field request_body "email" = Some (JStr e)
         ∧ in_bounds n ∧ in_bounds e.


(** The requests that can write, with the status that goes with a write. *)
Definition writes_with (r : Request) : option Z :=
  match r with
  | POST_users _ => Some 201
  | PUT_user _ _ => Some 200
  | DELETE_user _ => Some 204
  | _ => None
  end.

(** ** Sample data *)

Module sample.

Definition ann : json :=
  JObj {[ "name"%string := JStr "Ann"; "email"%string := JStr "a@x.com" ]}.

Definition bob : json :=
  JObj {[ "name"%string := JStr "Bob"; "email"%string := JStr "b@x.com" ]}.

Definition cy : json :=
  JObj {[ "name"%string := JStr "Cy"; "email"%string := JStr "c@x.com" ]}.

(** A body with an empty [name]. *)
Definition nameless : json :=
  JObj {[ "name"%string := JStr ""; "email"%string := JStr "a@x.com" ]}.

(** A body that also carries an [id] and a [created_at] of its own. *)
Definition ann_with_id : json :=
  JObj {[ "name"%string := JStr "Ann"; "email"%string := JStr "a@x.com";
          "id"%string := JNum 42; "created_at"%string := JStr "1999" ]}.

Definition ann_row : UserModel.t := UserModel.mk 1 "Ann" "a@x.com" 5.
Definition bob_row : UserModel.t := UserModel.mk 2 "Bob" "b@x.com" 6.

(** The store after Ann and Bob were created, at instant 7. *)
Definition two_users : Store := mkStore [ann_row; bob_row] 2 7.

Definition bobby : UserCreate.t := UserCreate.mk "Bobby" "bobby@x.com".

End sample.

(** * Properties *)

(** ** The monad, the ORM wrappers and the routes, equationally *)

Lemma find_has_pk (user_id : Z) (l : list UserModel.t) (u : UserModel.t) :
  List.find (UserModel.has_pk user_id) l = Some u →
  u ∈ l ∧ UserModel.id u = user_id.
Proof.
  intros H. apply find_some in H as [Hin Hpk].
  split; [by apply list_elem_of_In | by apply Z.eqb_eq].
Qed.

Lemma find_has_pk_None (user_id : Z) (l : list UserModel.t) :
  List.find (UserModel.has_pk user_id) l = None ↔
  ∀ u, u ∈ l → UserModel.id u ≠ user_id.
Proof.
  split.
  - intros H u Hin Heq.
    apply list_elem_of_In in Hin.
    pose proof (find_none _ _ H u Hin) as Hf.
    unfold UserModel.has_pk in Hf. apply Z.eqb_neq in Hf. done.
  - intros H. induction l as [|r l IH]; [done|]. simpl.
    unfold UserModel.has_pk at 1.
    destruct (Z.eqb_spec (UserModel.id r) user_id) as [Heq|Hne].
    + exfalso. apply (H r); [left | done].
    + apply IH. intros u Hu. apply H. by right.
Qed.

(** With distinct keys, the row found for a key is the row with that key. *)
Lemma find_has_pk_unique (l : list UserModel.t) (u : UserModel.t) :
  NoDup (UserModel.id <$> l) → u ∈ l →
  List.find (UserModel.has_pk (UserModel.id u)) l = Some u.
Proof.
  induction l as [|r l IH]; intros Hnd Hin.
  - by apply elem_of_nil in Hin.
  - simpl in *. apply NoDup_cons in Hnd as [Hnotin Hnd].
    unfold UserModel.has_pk at 1.
    destruct (Z.eqb_spec (UserModel.id r) (UserModel.id u)) as [Heq|Hne].
    + apply elem_of_cons in Hin as [->|Hin]; [done|].
      exfalso. apply Hnotin. rewrite Heq. by apply list_elem_of_fmap_2.
    + apply elem_of_cons in Hin as [->|Hin]; [done|]. by apply IH.
Qed.

(** A key no row of [l] has is looked up in what follows [l]. *)
Lemma find_has_pk_app (user_id : Z) (l l' : list UserModel.t) :
  (∀ u, u ∈ l → UserModel.id u ≠ user_id) →
  List.find (UserModel.has_pk user_id) (l ++ l')
  = List.find (UserModel.has_pk user_id) l'.
Proof.
  induction l as [|r l IH]; intros H; [done|]. simpl.
  unfold UserModel.has_pk at 1.
  destruct (Z.eqb_spec (UserModel.id r) user_id) as [Heq|Hne].
  - exfalso. apply (H r); [left | done].
  - apply IH. intros u Hu. apply H. by right.
Qed.

Lemma existsb_has_pk (user_id : Z) (l : list UserModel.t) (u : UserModel.t) :
  List.find (UserModel.has_pk user_id) l = Some u →
  existsb (UserModel.has_pk user_id) l = true.
Proof.
  intros H. apply find_some in H as [Hin Hpk].
  apply existsb_exists. eauto.
Qed.

Lemma get_user_db_eq (user_id : Z) (s : Store) :
  get_user_db user_id s
  = (inr (List.find (UserModel.has_pk user_id) (rows s)), s).
Proof.
  unfold get_user_db, try_except_DoesNotExist, mbind, Async_bind, objects.get.
  by destruct (List.find _ _).
Qed.

Lemma create_user_db_eq (user_data : UserCreate.t) (s : Store) :
  create_user_db user_data s
  = let u := UserModel.mk (last_id s + 1) (UserCreate.name user_data)
               (UserCreate.email user_data) (clock s) in
    (inr u, mkStore (rows s ++ [u]) (last_id s + 1) (clock s)).
Proof. by destruct user_data. Qed.

Lemma update_user_db_eq (user_id : Z) (user_data : UserCreate.t) (s : Store) :
  update_user_db user_id user_data s
  = match List.find (UserModel.has_pk user_id) (rows s) with
    | None => (inr None, s)
    | Some u =>
        (inr (Some (overwrite user_data u)),
         mkStore (map (λ r, if UserModel.has_pk user_id r
                            then overwrite user_data u else r) (rows s))
                 (last_id s) (clock s))
    end.
Proof.
  unfold update_user_db, mbind, Async_bind. rewrite get_user_db_eq.
  destruct (List.find _ _) as [u|] eqn:Hfind; [|done].
  pose proof (existsb_has_pk _ _ _ Hfind) as Hex.
  apply find_has_pk in Hfind as [_ Hid].
  unfold save. simpl. rewrite Hid, Hex. done.
Qed.

Lemma delete_user_db_eq (user_id : Z) (s : Store) :
  delete_user_db user_id s
  = match List.find (UserModel.has_pk user_id) (rows s) with
    | None => (inr false, s)
    | Some _ =>
        (inr true,
         mkStore (filter (λ r, UserModel.id r ≠ user_id) (rows s))
                 (last_id s) (clock s))
    end.
Proof.
  unfold delete_user_db, mbind, Async_bind. rewrite get_user_db_eq.
  destruct (List.find _ _) as [u|] eqn:Hfind; [|done].
  apply find_has_pk in Hfind as [_ Hid].
  unfold delete. simpl. by rewrite Hid.
Qed.

(** ** Validation *)

Lemma field_ok_in_bounds (v : string) :
  UserBase.field_ok v = true ↔ in_bounds v.
Proof.
  unfold UserBase.field_ok, in_bounds, min_length, max_length.
  rewrite andb_true_iff, !negb_true_iff, !Nat.ltb_ge. lia.
Qed.

Lemma validate_field_in_bounds (loc v : string) :
  in_bounds v → UserBase.validate_field loc (Some (JStr v)) = inr v.
Proof.
  unfold in_bounds, UserBase.validate_field, min_length, max_length.
  intros [Hlo Hhi].
  destruct (Nat.ltb_spec (String.length v) 1); [lia|].
  destruct (Nat.ltb_spec 100 (String.length v)); [lia|done].
Qed.

Lemma validate_field_inr (loc : string) (o : option json) (v : string) :
  UserBase.validate_field loc o = inr v → o = Some (JStr v) ∧ in_bounds v.
Proof.
  unfold UserBase.validate_field, in_bounds, min_length, max_length.
  destruct o as [[| | |w| |]|]; try discriminate.
  destruct (Nat.ltb_spec (String.length w) 1); [discriminate|].
  destruct (Nat.ltb_spec 100 (String.length w)); [discriminate|].
  intros [= ->]. split; [done|lia].
Qed.

Lemma validate_field_rejected (request_body : json) (k : string) :
  rejected request_body k →
  ∃ e, UserBase.validate_field k (field request_body k) = inl e.
Proof.
  unfold UserBase.validate_field, min_length, max_length.
  intros [->|(v & -> & Hlen)]; [eauto|].
  destruct (Nat.ltb_spec (String.length v) 1); [eauto|].
  destruct (Nat.ltb_spec 100 (String.length v)); [eauto|lia].
Qed.

Lemma model_validate_valid (request_body : json) (n e : string) :
  field request_body "name" = Some (JStr n) →
  field request_body "email" = Some (JStr e) →
  in_bounds n → in_bounds e →
  UserCreate.model_validate request_body = inr (UserCreate.mk n e).
Proof.
  destruct request_body; try discriminate. simpl.
  intros -> -> Hn He.
  by rewrite !validate_field_in_bounds.
Qed.

Lemma model_validate_rejected (request_body : json) :
  rejected request_body "name" ∨ rejected request_body "email" →
  ∃ errors, errors ≠ [] ∧ UserCreate.model_validate request_body = inl errors.
Proof.
  intros H.
  destruct request_body as [| | | | |d];
    try (eexists; split; [|reflexivity]; discriminate).
  unfold UserCreate.model_validate, UserBase.model_validate.
  change (d !! "name") with (field (JObj d) "name").
  change (d !! "email") with (field (JObj d) "email").
  destruct H as [H|H]; apply validate_field_rejected in H as [err ->].
  - destruct (UserBase.validate_field "email" _);
      eexists; (split; [|reflexivity]); discriminate.
  - destruct (UserBase.validate_field "name" _);
      eexists; (split; [|reflexivity]); discriminate.
Qed.

(** A body that passes validation carries both fields within bounds. *)
Lemma model_validate_inr (request_body : json) (user_in : UserCreate.t) :
  UserCreate.model_validate request_body = inr user_in →
  field request_body "name" = Some (JStr (UserCreate.name user_in))
  ∧ field request_body "email" = Some (JStr (UserCreate.email user_in))
  ∧ in_bounds (UserCreate.name user_in)
  ∧ in_bounds (UserCreate.email user_in).
Proof.
  destruct request_body as [| | | | |d]; try discriminate.
  unfold UserCreate.model_validate, UserBase.model_validate. simpl.
  destruct (UserBase.validate_field "name" _) as [en|n] eqn:Hn;
    destruct (UserBase.validate_field "email" _) as [ee|e] eqn:He;
    try discriminate.
  intros [= <-]. simpl.
  apply validate_field_inr in Hn as [-> ?].
  apply validate_field_inr in He as [-> ?]. done.
Qed.

Lemma from_attributes_row_ok (u : UserModel.t) :
  row_ok u = true → User.from_attributes u = Some (to_User u).
Proof. unfold row_ok, User.from_attributes. by intros ->. Qed.

Lemma response_User_row_ok (u : UserModel.t) :
  row_ok u = true → response_User u = Some (content_user (to_User u)).
Proof.
  intros H. unfold response_User. by rewrite from_attributes_row_ok.
Qed.

Lemma row_ok_in_bounds (i t : Z) (n e : string) :
  in_bounds n → in_bounds e → row_ok (UserModel.mk i n e t) = true.
Proof.
  intros Hn He. unfold row_ok. simpl.
  apply andb_true_iff. by rewrite !field_ok_in_bounds.
Qed.

(** ** Creating a user *)

(** C1. [POST /users/]: a body whose [name] and [email] are strings of
    length 1 to 100 is answered 201 with the created user, which carries
    the id and the timestamp the store assigned, and the record is appended
    to the store. A body in which one of the two fields is missing, empty
    or longer than 100 characters is answered 422 with the validation
    errors; that answer is the same whatever the store holds, and the
    store, hence its record count, is left as it was. *)
Theorem post_users_validated (request_body : json) (s : Store) :
  (∀ n e,
     field request_body "name" = Some (JStr n) →
     field request_body "email" = Some (JStr e) →
     in_bounds n → in_bounds e →
     let created := UserModel.mk (last_id s + 1) n e (clock s) in
     app (POST_users request_body) s
     = (mkResponse 201 (content_user (to_User created)),
        mkStore (rows s ++ [created]) (last_id s + 1) (clock s))
     ∧ created ∈ rows (app (POST_users request_body) s).2)
  ∧ (rejected request_body "name" ∨ rejected request_body "email" →
     ∃ errors,
       errors ≠ []
       ∧ (∀ s0, app (POST_users request_body) s0
                = (mkResponse 422 (content_errors errors), s0))
       ∧ length (rows (app (POST_users request_body) s).2) = length (rows s)).
Proof.
  split.
  - intros n e Hn He Hbn Hbe created.
    assert (app (POST_users request_body) s
            = (mkResponse 201 (content_user (to_User created)),
               mkStore (rows s ++ [created]) (last_id s + 1) (clock s)))
      as Heq.
    { simpl. unfold with_body.
      rewrite (model_validate_valid _ n e) by done.
      unfold respond, create_user, mbind, Async_bind.
      rewrite create_user_db_eq. simpl.
      rewrite response_User_row_ok by by apply row_ok_in_bounds.
      done. }
    split; [done|]. rewrite Heq. simpl.
    apply elem_of_app. right. by apply list_elem_of_singleton.
  - intros Hrej.
    destruct (model_validate_rejected _ Hrej) as (errors & Hne & Hval).
    exists errors.
    assert (∀ s0, app (POST_users request_body) s0
                  = (mkResponse 422 (content_errors errors), s0)) as Heq.
    { intros s0. simpl. unfold with_body. by rewrite Hval. }
    split; [done|]. split; [done|]. by rewrite Heq.
Qed.

Lemma post_users_validated_witness :
  app (POST_users sample.ann) (empty_store 5)
  = (mkResponse 201 (content_user (User.mk 1 "Ann" "a@x.com" (Some 5))),
     mkStore [UserModel.mk 1 "Ann" "a@x.com" 5] 1 5)
  ∧ ∃ errors,
      errors ≠ []
      ∧ app (POST_users sample.nameless) sample.two_users
        = (mkResponse 422 (content_errors errors), sample.two_users).
Proof.
  split.
  - apply (proj1 (post_users_validated sample.ann (empty_store 5))
             "Ann"%string "a@x.com"%string);
      [reflexivity | reflexivity | unfold in_bounds; simpl; lia ..].
  - destruct (proj2 (post_users_validated sample.nameless sample.two_users))
      as (errors & Hne & Heq & _).
    + left. right. exists ""%string. split; [reflexivity | left; reflexivity].
    + exists errors. split; [exact Hne | apply Heq].
Defined.

(** ** The invariant *)

Lemma store_ok_spec (s : Store) :
  store_ok s ↔
  0 ≤ last_id s
  ∧ Forall (λ u, row_ok u = true) (rows s)
  ∧ Forall (λ u, 1 ≤ UserModel.id u ≤ last_id s) (rows s)
  ∧ NoDup (ids s).
Proof.
  unfold store_ok, store_okb.
  rewrite !andb_true_iff, !forallb_forall, !Forall_forall, bool_decide_eq_true.
  rewrite Z.leb_le. unfold id_ok.
  split.
  - intros [[[H0 H1] H2] H3]. split; [done|]. split; [|split]; [| |done].
    + intros u Hu. apply list_elem_of_In in Hu. by apply H1.
    + intros u Hu. apply list_elem_of_In in Hu. specialize (H2 u Hu).
      apply andb_true_iff in H2 as [?%Z.leb_le ?%Z.leb_le]. lia.
  - intros (H0 & H1 & H2 & H3). split; [split; [split; [done|]|]|done].
    + intros u Hu. apply list_elem_of_In in Hu. by apply H1.
    + intros u Hu. apply list_elem_of_In in Hu. specialize (H2 u Hu).
      apply andb_true_iff. rewrite !Z.leb_le. lia.
Qed.

Lemma store_ok_row (s : Store) (u : UserModel.t) :
  store_ok s → u ∈ rows s →
  row_ok u = true ∧ 1 ≤ UserModel.id u ≤ last_id s.
Proof.
  intros (_ & Hrow & Hid & _)%store_ok_spec Hin.
  rewrite Forall_forall in Hrow, Hid. split; [by apply Hrow | by apply Hid].
Qed.

Lemma store_ok_find (s : Store) (u : UserModel.t) :
  store_ok s → u ∈ rows s →
  List.find (UserModel.has_pk (UserModel.id u)) (rows s) = Some u.
Proof.
  intros (_ & _ & _ & Hnd)%store_ok_spec Hin. by apply find_has_pk_unique.
Qed.

Lemma exists_id_find (user_id : Z) (s : Store) :
  exists_id user_id s ↔
  ∃ u, List.find (UserModel.has_pk user_id) (rows s) = Some u.
Proof.
  split.
  - intros (u & Hin & Hid).
    destruct (List.find _ _) as [r|] eqn:Hfind; [eauto|].
    exfalso. by apply (proj1 (find_has_pk_None _ _) Hfind u).
  - intros [u Hfind]. exists u. by apply find_has_pk.
Qed.

Lemma not_exists_id_find (user_id : Z) (s : Store) :
  ¬ exists_id user_id s ↔
  List.find (UserModel.has_pk user_id) (rows s) = None.
Proof.
  rewrite exists_id_find. destruct (List.find _ _); split; try done.
  - intros H. exfalso. apply H. eauto.
  - intros _ [u Hu]. done.
Qed.

Lemma store_ok_empty (now : Z) : store_ok (empty_store now).
Proof. done. Qed.

Lemma store_ok_set_clock (now : Z) (s : Store) :
  store_ok s → store_ok (set_clock now s).
Proof. done. Qed.

Lemma store_ok_insert (s : Store) (n e : string) :
  store_ok s → in_bounds n → in_bounds e →
  store_ok (mkStore (rows s ++ [UserModel.mk (last_id s + 1) n e (clock s)])
                    (last_id s + 1) (clock s)).
Proof.
  intros (H0 & Hrow & Hid & Hnd)%store_ok_spec Hn He.
  apply store_ok_spec. unfold ids in *. simpl. split; [lia|]. split; [|split].
  - apply Forall_app. split; [done|].
    apply Forall_singleton. by apply row_ok_in_bounds.
  - apply Forall_app. split.
    + eapply Forall_impl; [exact Hid|]. simpl. lia.
    + apply Forall_singleton. simpl. lia.
  - rewrite fmap_app. simpl. apply NoDup_app. split; [done|]. split.
    + intros i Hi ->%list_elem_of_singleton.
      apply list_elem_of_fmap in Hi as (u & Heq & Hu).
      rewrite Forall_forall in Hid. specialize (Hid u Hu). lia.
    + apply NoDup_singleton.
Qed.

Lemma store_ok_overwrite (s : Store) (user_in : UserCreate.t) (u : UserModel.t) :
  store_ok s → u ∈ rows s →
  in_bounds (UserCreate.name user_in) → in_bounds (UserCreate.email user_in) →
  store_ok (mkStore (map (λ r, if UserModel.has_pk (UserModel.id u) r
                               then overwrite user_in u else r) (rows s))
                    (last_id s) (clock s)).
Proof.
  intros (H0 & Hrow & Hid & Hnd)%store_ok_spec Hin Hn He.
  rewrite Forall_forall in Hrow, Hid.
  apply store_ok_spec. unfold ids in *. simpl. split; [done|].
  split; [|split].
  - apply Forall_forall. intros r' (r & -> & Hr)%list_elem_of_fmap.
    destruct (UserModel.has_pk _ r); [|by apply Hrow].
    by apply row_ok_in_bounds.
  - apply Forall_forall. intros r' (r & -> & Hr)%list_elem_of_fmap.
    destruct (UserModel.has_pk _ r); [|by apply Hid].
    simpl. by apply Hid.
  - change (map ?f ?l) with (f <$> l). rewrite <- list_fmap_compose.
    erewrite list_fmap_ext; [exact Hnd|].
    intros k r Hk. simpl. unfold UserModel.has_pk.
    destruct (Z.eqb_spec (UserModel.id r) (UserModel.id u)); simpl; done.
Qed.

Lemma store_ok_filter (s : Store) (user_id : Z) :
  store_ok s →
  store_ok (mkStore (filter (λ r, UserModel.id r ≠ user_id) (rows s))
                    (last_id s) (clock s)).
Proof.
  intros (H0 & Hrow & Hid & Hnd)%store_ok_spec.
  apply store_ok_spec. unfold ids in *. simpl. split; [done|].
  split; [|split].
  - apply Forall_forall. intros r [_ Hr]%list_elem_of_filter.
    rewrite Forall_forall in Hrow. by apply Hrow.
  - apply Forall_forall. intros r [_ Hr]%list_elem_of_filter.
    rewrite Forall_forall in Hid. by apply Hid.
  - eapply sublist_NoDup; [exact Hnd|].
    apply fmap_sublist, sublist_filter.
Qed.

(** ** The routes, equationally *)

Lemma mapM_from_attributes (l : list UserModel.t) :
  Forall (λ u, row_ok u = true) l →
  mapM User.from_attributes l = Some (to_User <$> l).
Proof.
  intros H. apply mapM_Some. induction H as [|u l Hu _ IH]; simpl.
  - constructor.
  - constructor; [by apply from_attributes_row_ok | exact IH].
Qed.

Lemma app_POST_users (request_body : json) (s : Store) :
  app (POST_users request_body) s
  = match UserCreate.model_validate request_body with
    | inl errors => (mkResponse 422 (content_errors errors), s)
    | inr user_in =>
        let created := UserModel.mk (last_id s + 1) (UserCreate.name user_in)
                         (UserCreate.email user_in) (clock s) in
        (mkResponse 201 (content_user (to_User created)),
         mkStore (rows s ++ [created]) (last_id s + 1) (clock s))
    end.
Proof.
  simpl. unfold with_body.
  destruct (UserCreate.model_validate request_body) as [errors|user_in] eqn:Hv;
    [done|].
  apply model_validate_inr in Hv as (_ & _ & Hn & He).
  unfold respond, create_user, mbind, Async_bind.
  rewrite create_user_db_eq. simpl.
  by rewrite response_User_row_ok by by apply row_ok_in_bounds.
Qed.

Lemma app_GET_users (s : Store) :
  app GET_users s
  = (match response_List_User (rows s) with
     | Some c => mkResponse 200 c
     | None => mkResponse 500 content_server_error
     end, s).
Proof.
  simpl. unfold respond, read_users, get_all_users_db, mbind, Async_bind.
  simpl. by destruct (response_List_User _).
Qed.

Lemma app_GET_users_ok (s : Store) :
  store_ok s →
  app GET_users s = (mkResponse 200 (content_users (to_User <$> rows s)), s).
Proof.
  intros (_ & Hrow & _)%store_ok_spec. rewrite app_GET_users.
  unfold response_List_User. by rewrite mapM_from_attributes.
Qed.

Lemma app_GET_user (user_id : Z) (s : Store) :
  app (GET_user user_id) s
  = match List.find (UserModel.has_pk user_id) (rows s) with
    | None => (not_found, s)
    | Some u =>
        (match response_User u with
         | Some c => mkResponse 200 c
         | None => mkResponse 500 content_server_error
         end, s)
    end.
Proof.
  simpl. unfold respond, read_user, mbind, Async_bind.
  rewrite get_user_db_eq.
  destruct (List.find _ _) as [u|]; [|done].
  simpl. by destruct (response_User u).
Qed.

Lemma app_PUT_user (user_id : Z) (request_body : json) (s : Store) :
  app (PUT_user user_id request_body) s
  = match UserCreate.model_validate request_body with
    | inl errors => (mkResponse 422 (content_errors errors), s)
    | inr user_in =>
        match List.find (UserModel.has_pk user_id) (rows s) with
        | None => (not_found, s)
        | Some u =>
            (mkResponse 200 (content_user (to_User (overwrite user_in u))),
             mkStore (map (λ r, if UserModel.has_pk user_id r
                                then overwrite user_in u else r) (rows s))
                     (last_id s) (clock s))
        end
    end.
Proof.
  simpl. unfold with_body.
  destruct (UserCreate.model_validate request_body) as [errors|user_in] eqn:Hv;
    [done|].
  apply model_validate_inr in Hv as (_ & _ & Hn & He).
  unfold respond, update_user, mbind, Async_bind.
  rewrite update_user_db_eq.
  destruct (List.find _ _) as [u|]; [|done].
  simpl. by rewrite response_User_row_ok by by apply row_ok_in_bounds.
Qed.

Lemma app_DELETE_user (user_id : Z) (s : Store) :
  app (DELETE_user user_id) s
  = match List.find (UserModel.has_pk user_id) (rows s) with
    | None => (not_found, s)
    | Some _ =>
        (mkResponse 204 content_empty,
         mkStore (filter (λ r, UserModel.id r ≠ user_id) (rows s))
                 (last_id s) (clock s))
    end.
Proof.
  simpl. unfold respond, delete_user, mbind, Async_bind.
  rewrite delete_user_db_eq.
  by destruct (List.find _ _).
Qed.

(** The invariant holds of the empty store and every step keeps it. *)
Lemma store_ok_app (r : Request) (s : Store) :
  store_ok s → store_ok (app r s).2.
Proof.
  intros Hok. destruct r as [b| |i|i b|i|].
  - rewrite app_POST_users.
    destruct (UserCreate.model_validate b) as [?|user_in] eqn:Hv; [done|].
    apply model_validate_inr in Hv as (_ & _ & Hn & He).
    by apply store_ok_insert.
  - by rewrite app_GET_users.
  - rewrite app_GET_user. by destruct (List.find _ _).
  - rewrite app_PUT_user.
    destruct (UserCreate.model_validate b) as [?|user_in] eqn:Hv; [done|].
    apply model_validate_inr in Hv as (_ & _ & Hn & He).
    destruct (List.find _ _) as [u|] eqn:Hfind; [|done].
    apply find_has_pk in Hfind as [Hin <-]. simpl.
    by apply store_ok_overwrite.
  - rewrite app_DELETE_user.
    destruct (List.find _ _); [|done]. by apply store_ok_filter.
  - done.
Qed.

Lemma store_ok_step (s s' : Store) : step s s' → store_ok s → store_ok s'.
Proof.
  intros [r s0|now s0] Hok; [by apply store_ok_app | done].
Qed.

Lemma store_ok_steps (s s' : Store) : rtc step s s' → store_ok s → store_ok s'.
Proof. induction 1; eauto using store_ok_step. Qed.

(** Every state the service reaches from an empty store is well formed. *)
Lemma store_ok_reachable (now : Z) (s : Store) :
  rtc step (empty_store now) s → store_ok s.
Proof. intros H. eapply store_ok_steps; [exact H|]. apply store_ok_empty. Qed.

(** ** Reading one user *)

(** C2. [GET /users/{id}], for every integer [user_id]: when the store
    holds a record with that id, [get_user_db] returns that record and the
    route answers 200 with it; when the store holds no record with that id,
    [get_user_db] returns [None] and the route answers 404. The store is
    read only. *)
Theorem read_user_found_or_404 (user_id : Z) (s : Store) :
  (∀ u, store_ok s → u ∈ rows s → UserModel.id u = user_id →
     get_user_db user_id s = (inr (Some u), s)
     ∧ app (GET_user user_id) s
       = (mkResponse 200 (content_user (to_User u)), s))
  ∧ (¬ exists_id user_id s →
     get_user_db user_id s = (inr None, s)
     ∧ app (GET_user user_id) s = (not_found, s)).
Proof.
  split.
  - intros u Hok Hin <-.
    rewrite get_user_db_eq, app_GET_user, (store_ok_find s u) by done.
    split; [done|].
    by rewrite response_User_row_ok by by apply (store_ok_row s).
  - intros Hnone%not_exists_id_find.
    by rewrite get_user_db_eq, app_GET_user, Hnone.
Qed.

Lemma read_user_found_or_404_witness :
  app (GET_user 2) sample.two_users
  = (mkResponse 200 (content_user (User.mk 2 "Bob" "b@x.com" (Some 6))),
     sample.two_users)
  ∧ app (GET_user 3) sample.two_users = (not_found, sample.two_users).
Proof.
  split.
  - apply (proj1 (read_user_found_or_404 2 sample.two_users) sample.bob_row).
    + reflexivity.
    + right. left.
    + reflexivity.
  - apply (proj2 (read_user_found_or_404 3 sample.two_users)).
    intros (u & Hin & Hid). revert Hid.
    apply elem_of_cons in Hin as [->|Hin]; [discriminate|].
    apply elem_of_cons in Hin as [->|Hin]; [discriminate|].
    by apply elem_of_nil in Hin.
Defined.

(** ** Create, then read *)

(** C3. The record [create_user_db] returns is the record [get_user_db]
    returns for its id in the store the creation leaves; over HTTP, a
    [POST /users/] answered 201 with a user and a [GET /users/{id}] for the
    id in that answer, served next, carry the same user: same id, name,
    email and created_at. *)
Theorem create_then_get (s : Store) (Hok : store_ok s) :
  (∀ user_data : UserCreate.t,
     ∃ created s',
       create_user_db user_data s = (inr created, s')
       ∧ get_user_db (UserModel.id created) s' = (inr (Some created), s'))
  ∧ (∀ request_body resp s',
       app (POST_users request_body) s = (resp, s') →
       status_code resp = 201 →
       ∃ u, body resp = content_user u
            ∧ app (GET_user (User.id u)) s'
              = (mkResponse 200 (content_user u), s')).
Proof.
  assert (∀ n e,
    List.find (UserModel.has_pk (last_id s + 1))
      (rows s ++ [UserModel.mk (last_id s + 1) n e (clock s)])
    = Some (UserModel.mk (last_id s + 1) n e (clock s))) as Hfind.
  { intros n e. rewrite find_has_pk_app.
    - simpl. unfold UserModel.has_pk. simpl. by rewrite Z.eqb_refl.
    - intros u Hu. apply (store_ok_row s u Hok) in Hu as [_ Hid]. lia. }
  split.
  - intros user_data. rewrite create_user_db_eq. simpl.
    eexists _, _. split; [reflexivity|].
    rewrite get_user_db_eq. simpl. by rewrite Hfind.
  - intros request_body resp s'. rewrite app_POST_users.
    destruct (UserCreate.model_validate request_body) as [?|user_in] eqn:Hv.
    + intros [= <- <-]. discriminate.
    + apply model_validate_inr in Hv as (_ & _ & Hn & He).
      intros [= <- <-] _. eexists. split; [reflexivity|].
      rewrite app_GET_user. cbn [rows User.id to_User UserModel.id].
      rewrite Hfind.
      by rewrite response_User_row_ok by by apply row_ok_in_bounds.
Qed.

Lemma create_then_get_witness :
  ∃ u, (app (POST_users sample.cy) sample.two_users).1
       = mkResponse 201 (content_user u)
       ∧ app (GET_user (User.id u)) (app (POST_users sample.cy) sample.two_users).2
         = (mkResponse 200 (content_user u),
            (app (POST_users sample.cy) sample.two_users).2).
Proof.
  destruct (proj2 (create_then_get sample.two_users eq_refl) sample.cy
              (app (POST_users sample.cy) sample.two_users).1
              (app (POST_users sample.cy) sample.two_users).2
              eq_refl eq_refl) as (u & Hbody & Hget).
  exists u. split; [|exact Hget].
  vm_compute in Hbody. vm_compute. by rewrite Hbody.
Defined.

(** ** Listing *)

(** The store a valid [POST /users/] leaves, whatever the instant. *)
Lemma app_POST_users_valid (request_body : json) (user_in : UserCreate.t)
    (now : Z) (s : Store) :
  UserCreate.model_validate request_body = inr user_in →
  let created := UserModel.mk (last_id s + 1) (UserCreate.name user_in)
                   (UserCreate.email user_in) now in
  app (POST_users request_body) (set_clock now s)
  = (mkResponse 201 (content_user (to_User created)),
     mkStore (rows s ++ [created]) (last_id s + 1) now).
Proof. intros Hv. rewrite app_POST_users, Hv. done. Qed.

(** C4. [GET /users/] answers 200 with every record of the store, in
    insertion order, and leaves the store as it is; an empty store gives an
    empty list. After three valid [POST /users/] requests, served at any
    instants, the list is the former list followed by the three created
    users in the order of their creation; starting from an empty store it
    is exactly those three. *)
Theorem read_users_all (s : Store) (Hok : store_ok s) :
  get_all_users_db s = (inr (rows s), s)
  ∧ app GET_users s = (mkResponse 200 (content_users (to_User <$> rows s)), s)
  ∧ (∀ b1 b2 b3 c1 c2 c3 t1 t2 t3,
       UserCreate.model_validate b1 = inr c1 →
       UserCreate.model_validate b2 = inr c2 →
       UserCreate.model_validate b3 = inr c3 →
       let post b t s0 := app (POST_users b) (set_clock t s0) in
       let s1 := (post b1 t1 s).2 in
       let s2 := (post b2 t2 s1).2 in
       let s3 := (post b3 t3 s2).2 in
       let u1 := User.mk (last_id s + 1) (UserCreate.name c1)
                   (UserCreate.email c1) (Some t1) in
       let u2 := User.mk (last_id s + 2) (UserCreate.name c2)
                   (UserCreate.email c2) (Some t2) in
       let u3 := User.mk (last_id s + 3) (UserCreate.name c3)
                   (UserCreate.email c3) (Some t3) in
       (post b1 t1 s).1 = mkResponse 201 (content_user u1)
       ∧ (post b2 t2 s1).1 = mkResponse 201 (content_user u2)
       ∧ (post b3 t3 s2).1 = mkResponse 201 (content_user u3)
       ∧ app GET_users s3
         = (mkResponse 200
              (content_users ((to_User <$> rows s) ++ [u1; u2; u3])), s3)
       ∧ (rows s = [] →
          app GET_users s3
          = (mkResponse 200 (content_users [u1; u2; u3]), s3))).
Proof.
  split; [done|]. split; [by apply app_GET_users_ok|].
  intros b1 b2 b3 c1 c2 c3 t1 t2 t3 Hv1 Hv2 Hv3 post s1 s2 s3 u1 u2 u3.
  assert (store_ok s3) as Hok3.
  { subst post s1 s2 s3.
    repeat (apply store_ok_app || apply store_ok_set_clock). exact Hok. }
  assert (rows s3
          = rows s ++ [UserModel.mk (last_id s + 1) (UserCreate.name c1)
                         (UserCreate.email c1) t1;
                       UserModel.mk (last_id s + 2) (UserCreate.name c2)
                         (UserCreate.email c2) t2;
                       UserModel.mk (last_id s + 3) (UserCreate.name c3)
                         (UserCreate.email c3) t3]) as Hrows.
  { subst post s1 s2 s3. cbv beta.
    rewrite (app_POST_users_valid b1 c1 t1 s Hv1). cbn [snd].
    rewrite (app_POST_users_valid b2 c2 t2 _ Hv2). cbn [snd rows last_id].
    rewrite (app_POST_users_valid b3 c3 t3 _ Hv3). cbn [snd rows last_id].
    rewrite <- !app_assoc. simpl.
    replace (last_id s + 1 + 1) with (last_id s + 2) by lia.
    replace (last_id s + 2 + 1) with (last_id s + 3) by lia.
    done. }
  assert (app GET_users s3
          = (mkResponse 200
               (content_users ((to_User <$> rows s) ++ [u1; u2; u3])), s3))
    as Hlist.
  { rewrite (app_GET_users_ok s3 Hok3), Hrows, fmap_app. done. }
  split; [|split; [|split; [|split]]].
  - subst post. cbv beta. by rewrite (app_POST_users_valid b1 c1 t1 s Hv1).
  - subst post s1. cbv beta.
    rewrite (app_POST_users_valid b1 c1 t1 s Hv1). cbn [snd].
    rewrite (app_POST_users_valid b2 c2 t2 _ Hv2).
    subst u2. unfold to_User. simpl. do 3 f_equal. lia.
  - subst post s1 s2. cbv beta.
    rewrite (app_POST_users_valid b1 c1 t1 s Hv1). cbn [snd].
    rewrite (app_POST_users_valid b2 c2 t2 _ Hv2). cbn [snd].
    rewrite (app_POST_users_valid b3 c3 t3 _ Hv3).
    subst u3. unfold to_User. simpl. do 3 f_equal. lia.
  - exact Hlist.
  - intros Hnil. rewrite Hlist, Hnil. done.
Qed.

Lemma read_users_all_witness :
  app GET_users sample.two_users
  = (mkResponse 200
       (content_users [User.mk 1 "Ann" "a@x.com" (Some 5);
                       User.mk 2 "Bob" "b@x.com" (Some 6)]),
     sample.two_users)
  ∧ app GET_users (empty_store 0) = (mkResponse 200 (content_users []), empty_store 0)
  ∧ app GET_users
      (app (POST_users sample.cy)
         (set_clock 3
            (app (POST_users sample.bob)
               (set_clock 2
                  (app (POST_users sample.ann)
                     (set_clock 1 (empty_store 0))).2)).2)).2
    = (mkResponse 200
         (content_users [User.mk 1 "Ann" "a@x.com" (Some 1);
                         User.mk 2 "Bob" "b@x.com" (Some 2);
                         User.mk 3 "Cy" "c@x.com" (Some 3)]),
       mkStore [UserModel.mk 1 "Ann" "a@x.com" 1;
                UserModel.mk 2 "Bob" "b@x.com" 2;
                UserModel.mk 3 "Cy" "c@x.com" 3] 3 3).
Proof.
  split; [|split].
  - apply (proj1 (proj2 (read_users_all sample.two_users eq_refl))).
  - apply (proj1 (proj2 (read_users_all (empty_store 0) eq_refl))).
  - apply (proj2 (proj2 (read_users_all (empty_store 0) eq_refl))
             sample.ann sample.bob sample.cy
             (UserCreate.mk "Ann" "a@x.com") (UserCreate.mk "Bob" "b@x.com")
             (UserCreate.mk "Cy" "c@x.com") 1 2 3 eq_refl eq_refl eq_refl).
    reflexivity.
Defined.

(** ** Updating *)

(** C5. [PUT /users/{id}] with a valid body, when the store holds a record
    [u] with that id: the record is replaced, in place, by one with the
    [name] and the [email] of the body, both of them whatever they were
    before; the route answers 200 with the updated record, and that record
    is what the store then holds for the id. *)
Theorem update_user_overwrites (user_id : Z) (request_body : json)
    (user_in : UserCreate.t) (u : UserModel.t) (s : Store) :
  store_ok s →
  UserCreate.model_validate request_body = inr user_in →
  u ∈ rows s → UserModel.id u = user_id →
  let updated := overwrite user_in u in
  let s' := mkStore ((λ r, if UserModel.has_pk user_id r then updated else r)
                       <$> rows s) (last_id s) (clock s) in
  update_user_db user_id user_in s = (inr (Some updated), s')
  ∧ app (PUT_user user_id request_body) s
    = (mkResponse 200 (content_user (to_User updated)), s')
  ∧ UserModel.name updated = UserCreate.name user_in
  ∧ UserModel.email updated = UserCreate.email user_in
  ∧ updated ∈ rows s'
  ∧ get_user_db user_id s' = (inr (Some updated), s').
Proof.
  intros Hok Hv Hin <- updated s'.
  pose proof (model_validate_inr _ _ Hv) as (_ & _ & Hn & He).
  assert (updated ∈ rows s') as Hin'.
  { apply list_elem_of_fmap. exists u. split; [|done].
    unfold UserModel.has_pk. by rewrite Z.eqb_refl. }
  assert (store_ok s') as Hok' by by apply store_ok_overwrite.
  rewrite update_user_db_eq, app_PUT_user, Hv, (store_ok_find s u) by done.
  repeat split; try done.
  rewrite get_user_db_eq.
  pose proof (store_ok_find s' updated Hok' Hin') as Hfind.
  change (UserModel.id updated) with (UserModel.id u) in Hfind.
  by rewrite Hfind.
Qed.

Lemma update_user_overwrites_witness :
  app (PUT_user 2 (JObj {[ "name"%string := JStr "Bobby";
                           "email"%string := JStr "bobby@x.com" ]}))
      sample.two_users
  = (mkResponse 200
       (content_user (User.mk 2 "Bobby" "bobby@x.com" (Some 6))),
     mkStore [sample.ann_row; UserModel.mk 2 "Bobby" "bobby@x.com" 6] 2 7).
Proof.
  apply (update_user_overwrites 2 _ sample.bobby sample.bob_row
           sample.two_users).
  - reflexivity.
  - reflexivity.
  - right. left.
  - reflexivity.
Defined.

(** C6. [PUT /users/{id}] when the store holds no record with that id: the
    endpoint raises the 404 "User not found" for every input of its type,
    the route answers 404 to every request whose body is valid, and,
    whatever the body, the store is left exactly as it was: nothing is
    written or created, and a list served next is the list served before. *)
Theorem update_user_missing (user_id : Z) (s : Store) :
  ¬ exists_id user_id s →
  (∀ user_in,
     update_user_db user_id user_in s = (inr None, s)
     ∧ update_user user_id user_in s
       = (inl (HTTPException 404 "User not found"), s))
  ∧ (∀ request_body user_in,
       UserCreate.model_validate request_body = inr user_in →
       app (PUT_user user_id request_body) s = (not_found, s))
  ∧ (∀ request_body,
       (app (PUT_user user_id request_body) s).2 = s
       ∧ app GET_users (app (PUT_user user_id request_body) s).2
         = app GET_users s).
Proof.
  intros Hnone%not_exists_id_find. split; [|split].
  - intros user_in.
    unfold update_user, mbind, Async_bind.
    by rewrite update_user_db_eq, Hnone.
  - intros request_body user_in Hv. by rewrite app_PUT_user, Hv, Hnone.
  - intros request_body.
    assert ((app (PUT_user user_id request_body) s).2 = s) as Heq.
    { rewrite app_PUT_user, Hnone.
      by destruct (UserCreate.model_validate request_body). }
    by rewrite Heq.
Qed.

Lemma update_user_missing_witness :
  app (PUT_user 9 sample.ann) sample.two_users = (not_found, sample.two_users).
Proof.
  assert (¬ exists_id 9 sample.two_users) as Hnone.
  { intros (u & Hin & Hid). revert Hid.
    apply elem_of_cons in Hin as [->|Hin]; [discriminate|].
    apply elem_of_cons in Hin as [->|Hin]; [discriminate|].
    by apply elem_of_nil in Hin. }
  apply (proj1 (proj2 (update_user_missing 9 sample.two_users Hnone))
           sample.ann (UserCreate.mk "Ann" "a@x.com")).
  reflexivity.
Defined.

(** ** Deleting *)

(** C7. [delete_user_db] returns [True] exactly when the store holds a
    record with the id. In that case the records with that id are removed
    and every other record stays, [DELETE /users/{id}] answers 204 with an
    empty body, and afterwards a get on the id finds nothing (404) and the
    list no longer shows the id. Otherwise it returns [False], the route
    answers 404 and the store is as it was. *)
Theorem delete_user_removes (user_id : Z) (s : Store) :
  let s' := mkStore (filter (λ r, UserModel.id r ≠ user_id) (rows s))
              (last_id s) (clock s) in
  ((delete_user_db user_id s).1 = inr true ↔ exists_id user_id s)
  ∧ (exists_id user_id s →
     delete_user_db user_id s = (inr true, s')
     ∧ app (DELETE_user user_id) s = (mkResponse 204 content_empty, s')
     ∧ ¬ exists_id user_id s'
     ∧ get_user_db user_id s' = (inr None, s')
     ∧ app (GET_user user_id) s' = (not_found, s')
     ∧ get_all_users_db s'
       = (inr (filter (λ r, UserModel.id r ≠ user_id) (rows s)), s')
     ∧ (∀ u, u ∈ rows s' ↔ u ∈ rows s ∧ UserModel.id u ≠ user_id))
  ∧ (¬ exists_id user_id s →
     delete_user_db user_id s = (inr false, s)
     ∧ app (DELETE_user user_id) s = (not_found, s)).
Proof.
  intros s'.
  assert (¬ exists_id user_id s') as Hgone.
  { intros (u & [Hne _]%list_elem_of_filter & Hid). done. }
  split; [|split].
  - rewrite delete_user_db_eq, exists_id_find.
    destruct (List.find _ _) as [u|]; simpl.
    + split; eauto.
    + split; [discriminate | by intros [u Hu]].
  - intros [u Hfind]%exists_id_find.
    rewrite delete_user_db_eq, app_DELETE_user, Hfind.
    split; [done|]. split; [done|]. split; [done|].
    apply not_exists_id_find in Hgone.
    rewrite get_user_db_eq, app_GET_user, Hgone.
    split; [done|]. split; [done|]. split; [done|].
    intros r. subst s'. simpl. rewrite list_elem_of_filter. tauto.
  - intros Hnone%not_exists_id_find.
    by rewrite delete_user_db_eq, app_DELETE_user, Hnone.
Qed.

Lemma delete_user_removes_witness :
  app (DELETE_user 1) sample.two_users
  = (mkResponse 204 content_empty, mkStore [sample.bob_row] 2 7)
  ∧ app (GET_user 1) (mkStore [sample.bob_row] 2 7)
    = (not_found, mkStore [sample.bob_row] 2 7)
  ∧ app (DELETE_user 1) (mkStore [sample.bob_row] 2 7)
    = (not_found, mkStore [sample.bob_row] 2 7).
Proof.
  assert (exists_id 1 sample.two_users) as Hex.
  { exists sample.ann_row. split; [left | reflexivity]. }
  assert (¬ exists_id 1 (mkStore [sample.bob_row] 2 7)) as Hnone.
  { intros (u & Hin & Hid). revert Hid.
    apply elem_of_cons in Hin as [->|Hin]; [discriminate|].
    by apply elem_of_nil in Hin. }
  destruct (proj1 (proj2 (delete_user_removes 1 sample.two_users)) Hex)
    as (_ & Hdel & _ & _ & Hget & _).
  split; [exact Hdel|]. split; [exact Hget|].
  apply (proj2 (proj2 (delete_user_removes 1 (mkStore [sample.bob_row] 2 7)))
           Hnone).
Defined.

(** ** What no operation changes *)

Lemma keeps_refl (s : Store) : keeps s s.
Proof. split; [lia|]. intros u' Hu' _. eauto. Qed.

Lemma keeps_trans (s1 s2 s3 : Store) : keeps s1 s2 → keeps s2 s3 → keeps s1 s3.
Proof.
  intros [Hle12 H12] [Hle23 H23]. split; [lia|].
  intros u3 Hu3 Hid3.
  destruct (H23 u3 Hu3) as (u2 & Hu2 & Hid2 & Hat2); [lia|].
  destruct (H12 u2 Hu2) as (u1 & Hu1 & Hid1 & Hat1); [lia|].
  exists u1. split; [done|]. split; congruence.
Qed.

Lemma keeps_app (r : Request) (s : Store) : keeps s (app r s).2.
Proof.
  destruct r as [b| |i|i b|i|].
  - rewrite app_POST_users.
    destruct (UserCreate.model_validate b) as [?|user_in];
      [apply keeps_refl|].
    split; simpl; [lia|].
    intros u' [Hu'| ->%list_elem_of_singleton]%elem_of_app Hid; [eauto|].
    simpl in Hid. lia.
  - rewrite app_GET_users. apply keeps_refl.
  - rewrite app_GET_user. destruct (List.find _ _); apply keeps_refl.
  - rewrite app_PUT_user.
    destruct (UserCreate.model_validate b) as [?|user_in];
      [apply keeps_refl|].
    destruct (List.find _ _) as [u|] eqn:Hfind; [|apply keeps_refl].
    apply find_has_pk in Hfind as [Hin Hid].
    split; simpl; [lia|].
    intros u' (r & -> & Hr)%list_elem_of_fmap _.
    unfold UserModel.has_pk.
    destruct (Z.eqb_spec (UserModel.id r) i) as [Heq|Hne]; [|eauto].
    exists u. simpl. done.
  - rewrite app_DELETE_user.
    destruct (List.find _ _); [|apply keeps_refl].
    split; simpl; [lia|].
    intros u' [_ Hu']%list_elem_of_filter _. eauto.
  - apply keeps_refl.
Qed.

Lemma keeps_steps (s s' : Store) : rtc step s s' → keeps s s'.
Proof.
  induction 1 as [s|s s1 s' Hstep _ IH]; [apply keeps_refl|].
  eapply keeps_trans; [|exact IH].
  destruct Hstep as [r s|now s]; [apply keeps_app|].
  split; simpl; [lia|]. intros u' Hu' _. eauto.
Qed.

(** C8. From a well-formed store, along any run of requests (and any
    passing of time), a record found under the id of a record [u] of the
    initial store has the [created_at] of [u]: the id stays with the record
    and the timestamp with the id. The update operation, position by
    position, leaves the id and the [created_at] of every record as they
    are, and leaves every record with another id untouched; the number of
    records and the counter do not change. *)
Theorem id_created_at_immutable (s : Store) (Hok : store_ok s) :
  (∀ s' u u',
     rtc step s s' → u ∈ rows s → u' ∈ rows s' →
     UserModel.id u' = UserModel.id u →
     UserModel.created_at u' = UserModel.created_at u)
  ∧ (∀ user_id user_data res s',
       update_user_db user_id user_data s = (res, s') →
       length (rows s') = length (rows s)
       ∧ last_id s' = last_id s
       ∧ ∀ k r, rows s !! k = Some r →
           ∃ r', rows s' !! k = Some r'
                 ∧ UserModel.id r' = UserModel.id r
                 ∧ UserModel.created_at r' = UserModel.created_at r
                 ∧ (UserModel.id r ≠ user_id → r' = r)
                 ∧ (UserModel.id r = user_id →
                    r' = overwrite user_data r)).
Proof.
  split.
  - intros s' u u' Hsteps Hu Hu' Hid.
    destruct (keeps_steps _ _ Hsteps) as [_ Hkeep].
    destruct (Hkeep u' Hu') as (u0 & Hu0 & Hid0 & Hat0).
    { rewrite Hid. by apply (store_ok_row s u Hok). }
    assert (u0 = u) as ->; [|done].
    pose proof (store_ok_find s u0 Hok Hu0) as H0.
    pose proof (store_ok_find s u Hok Hu) as H1.
    rewrite Hid0, Hid, H1 in H0. by injection H0.
  - intros user_id user_data res s'. rewrite update_user_db_eq.
    destruct (List.find _ _) as [u|] eqn:Hfind.
    + intros [= <- <-]. simpl.
      split; [by rewrite length_map|]. split; [done|].
      intros k r Hk.
      change (map ?f ?l) with (f <$> l). rewrite list_lookup_fmap, Hk. simpl.
      eexists. split; [reflexivity|].
      unfold UserModel.has_pk.
      destruct (Z.eqb_spec (UserModel.id r) user_id) as [Heq|Hne].
      * assert (u = r) as ->.
        { pose proof (store_ok_find s r Hok) as Hr.
          rewrite Heq, Hfind in Hr. injection Hr; [done|].
          by eapply list_elem_of_lookup_2. }
        simpl. repeat split; done.
      * repeat split; done.
    + intros [= <- <-]. split; [done|]. split; [done|].
      intros k r Hk. exists r. repeat split; try done.
      intros Hid. exfalso.
      apply (proj1 (find_has_pk_None _ _) Hfind r); [|done].
      by eapply list_elem_of_lookup_2.
Qed.

Lemma id_created_at_immutable_witness :
  UserModel.created_at (UserModel.mk 2 "Bobby" "bobby@x.com" 6)
  = UserModel.created_at sample.bob_row
  ∧ length (rows (update_user_db 2 sample.bobby sample.two_users).2) = 2%nat
  ∧ last_id (update_user_db 2 sample.bobby sample.two_users).2 = 2.
Proof.
  pose proof (id_created_at_immutable sample.two_users eq_refl) as [Hrun Hupd].
  split.
  - apply (Hrun (app (PUT_user 2 sample.bob) (set_clock 9
                   (app (PUT_user 2 (JObj {[ "name"%string := JStr "Bobby";
                            "email"%string := JStr "bobby@x.com" ]}))
                      sample.two_users).2)).2
             sample.bob_row (UserModel.mk 2 "Bob" "b@x.com" 6)).
    + eapply rtc_l; [apply step_request|].
      eapply rtc_l; [apply step_clock|].
      apply rtc_once, step_request.
    + right. left.
    + right. left.
    + reflexivity.
  - destruct (Hupd 2 sample.bobby
                (update_user_db 2 sample.bobby sample.two_users).1
                (update_user_db 2 sample.bobby sample.two_users).2 eq_refl)
      as (Hlen & Hlast & _).
    split; [exact Hlen | exact Hlast].
Defined.

(** ** Creation reads [name] and [email] only *)

(** C10. [model_dump] hands the store the two declared fields and nothing
    else. Two bodies with the same [name] and the same [email] leave the
    same store and get the same status, and the same 201 answer when they
    are valid; in particular a further key in the body, an [id] or a
    [created_at] of the client's among them, changes nothing. The record a
    201 stores has the [name] and [email] of the body, the next id of the
    counter and the instant of the store's clock. *)
Theorem create_reads_name_and_email (s : Store) :
  (∀ user_data,
     dom (UserCreate.model_dump user_data)
     = ({[ "name"%string; "email"%string ]} : gset string))
  ∧ (∀ b1 b2,
       field b1 "name" = field b2 "name" →
       field b1 "email" = field b2 "email" →
       (app (POST_users b1) s).2 = (app (POST_users b2) s).2
       ∧ status_code (app (POST_users b1) s).1
         = status_code (app (POST_users b2) s).1
       ∧ (status_code (app (POST_users b1) s).1 = 201 →
          app (POST_users b1) s = app (POST_users b2) s))
  ∧ (∀ d k v,
       k ≠ "name"%string → k ≠ "email"%string →
       app (POST_users (JObj (<[k:=v]> d))) s = app (POST_users (JObj d)) s)
  ∧ (∀ b resp s',
       app (POST_users b) s = (resp, s') → status_code resp = 201 →
       ∃ n e,
         field b "name" = Some (JStr n) ∧ field b "email" = Some (JStr e)
         ∧ s' = mkStore (rows s ++ [UserModel.mk (last_id s + 1) n e (clock s)])
                  (last_id s + 1) (clock s)
         ∧ body resp
           = content_user (User.mk (last_id s + 1) n e (Some (clock s)))).
Proof.
  split; [|split; [|split]].
  - intros user_data. unfold UserCreate.model_dump, UserBase.model_dump.
    rewrite dom_insert_L, dom_singleton_L. done.
  - intros b1 b2 Hname Hemail. rewrite !app_POST_users.
    destruct (UserCreate.model_validate b1) as [e1|c1] eqn:Hv1;
      destruct (UserCreate.model_validate b2) as [e2|c2] eqn:Hv2.
    + simpl. repeat split; done.
    + exfalso.
      apply model_validate_inr in Hv2 as (Hn & He & Hbn & Hbe).
      rewrite <- Hname in Hn. rewrite <- Hemail in He.
      rewrite (model_validate_valid b1 _ _ Hn He Hbn Hbe) in Hv1. done.
    + exfalso.
      apply model_validate_inr in Hv1 as (Hn & He & Hbn & Hbe).
      rewrite Hname in Hn. rewrite Hemail in He.
      rewrite (model_validate_valid b2 _ _ Hn He Hbn Hbe) in Hv2. done.
    + apply model_validate_inr in Hv1 as (Hn1 & He1 & _).
      apply model_validate_inr in Hv2 as (Hn2 & He2 & _).
      rewrite Hname, Hn2 in Hn1. rewrite Hemail, He2 in He1.
      destruct c1 as [n1 e1], c2 as [n2 e2]. simpl in *.
      injection Hn1 as ->. injection He1 as ->. done.
  - intros d k v Hk1 Hk2. rewrite !app_POST_users.
    unfold UserCreate.model_validate, UserBase.model_validate.
    by rewrite !lookup_insert_ne by done.
  - intros b resp s'. rewrite app_POST_users.
    destruct (UserCreate.model_validate b) as [?|c] eqn:Hv.
    + intros [= <- <-]. simpl. discriminate.
    + apply model_validate_inr in Hv as (Hn & He & _).
      intros [= <- <-] _.
      exists (UserCreate.name c), (UserCreate.email c). done.
Qed.

Lemma create_reads_name_and_email_witness :
  app (POST_users sample.ann_with_id) sample.two_users
  = app (POST_users sample.ann) sample.two_users
  ∧ (app (POST_users sample.ann_with_id) sample.two_users).2
    = mkStore [sample.ann_row; sample.bob_row; UserModel.mk 3 "Ann" "a@x.com" 7]
        3 7.
Proof.
  split.
  - apply (proj1 (proj2 (create_reads_name_and_email sample.two_users))
             sample.ann_with_id sample.ann); reflexivity.
  - destruct (proj2 (proj2 (proj2
                (create_reads_name_and_email sample.two_users)))
                sample.ann_with_id
                (app (POST_users sample.ann_with_id) sample.two_users).1
                (app (POST_users sample.ann_with_id) sample.two_users).2
                eq_refl eq_refl) as (n & e & Hn & He & Hs & _).
    vm_compute in Hn, He.
    injection Hn as <-. injection He as <-. exact Hs.
Defined.

(** ** The database configuration *)

Section SettingsFacts.

Variable file : settings.Path.
Variable dotenv_values : settings.Path → gmap string string.
Variable environ : gmap string string.

(** After [load_dotenv], a variable reads as the process environment has
    it, and as the [.env] file has it when the process has none. *)
Lemma os_environ_lookup (key : string) :
  settings.os_environ file dotenv_values environ !! key
  = settings.variable file dotenv_values environ key.
Proof.
  unfold settings.os_environ, settings.load_dotenv, settings.variable,
    settings.joinpath.
  rewrite lookup_union.
  destruct (environ !! key) as [v|];
    by destruct (dotenv_values _ !! key).
Qed.

End SettingsFacts.

(** C9. The entry [DATABASES['default']] takes [ENGINE], [NAME], [USER],
    [PASSWORD], [HOST] and [PORT] from the variables [DB_ENGINE], [DB_NAME],
    [DB_USER], [DB_PASSWORD], [DB_HOST] and [DB_PORT]. When [DB_ENGINE] and
    [DB_NAME] are not set, the engine is SQLite and the database is the file
    [db.sqlite3] in [BASE_DIR], the directory two levels above
    [settings.py]: for [<root>/config/settings.py], the file
    [<root>/db.sqlite3]. *)
Theorem databases_from_environment (file : settings.Path)
    (dotenv_values : settings.Path → gmap string string)
    (environ : gmap string string) :
  let var := settings.variable file dotenv_values environ in
  let base := settings.BASE_DIR file in
  ∃ db,
    settings.DATABASES file dotenv_values environ !! "default" = Some db
    ∧ settings.ENGINE db
      = default "django.db.backends.sqlite3"%string (var "DB_ENGINE")
    ∧ settings.NAME db
      = from_option inl (inr (base ++ ["db.sqlite3"%string])) (var "DB_NAME")
    ∧ settings.USER db = var "DB_USER"
    ∧ settings.PASSWORD db = var "DB_PASSWORD"
    ∧ settings.HOST db = var "DB_HOST"
    ∧ settings.PORT db = var "DB_PORT"
    ∧ (∀ key v, environ !! key = Some v → var key = Some v)
    ∧ (var "DB_ENGINE" = None → var "DB_NAME" = None →
       settings.ENGINE db = "django.db.backends.sqlite3"%string
       ∧ settings.NAME db = inr (base ++ ["db.sqlite3"%string]))
    ∧ (∀ root, file = root ++ ["config"%string; "settings.py"%string] →
       base = root).
Proof.
  intros var base. eexists. split.
  { unfold settings.DATABASES. apply lookup_singleton_eq. }
  unfold settings.getenv_default, settings.getenv. simpl.
  rewrite !os_environ_lookup. fold var.
  repeat (split; [done|]).
  split; [|split].
  - intros key v Hkey. subst var. unfold settings.variable. by rewrite Hkey.
  - by intros -> ->.
  - intros root ->. subst base. unfold settings.BASE_DIR, settings.parent.
    change (root ++ ["config"%string; "settings.py"%string])
      with (root ++ ["config"%string] ++ ["settings.py"%string]).
    rewrite app_assoc. by rewrite !removelast_last.
Qed.

Lemma databases_from_environment_witness :
  ∃ db,
    settings.DATABASES ["srv"; "app"; "config"; "settings.py"]%string (λ _, ∅) ∅
      !! "default" = Some db
    ∧ settings.ENGINE db = "django.db.backends.sqlite3"%string
    ∧ settings.NAME db = inr ["srv"; "app"; "db.sqlite3"]%string.
Proof.
  destruct (databases_from_environment
              ["srv"; "app"; "config"; "settings.py"]%string (λ _, ∅) ∅)
    as (db & Hdb & _ & _ & _ & _ & _ & _ & _ & Hdefault & _).
  exists db. split; [exact Hdb|].
  apply Hdefault; reflexivity.
Defined.

(** ** A run of the service *)

(** Create, read, delete, read again, as in the service's contract. *)
Example end_to_end :
  (serve [POST_users sample.ann; GET_user 1; DELETE_user 1; GET_user 1]
     (empty_store 5)).1
  = [mkResponse 201 (content_user (User.mk 1 "Ann" "a@x.com" (Some 5)));
     mkResponse 200 (content_user (User.mk 1 "Ann" "a@x.com" (Some 5)));
     mkResponse 204 content_empty;
     not_found].
Proof. reflexivity. Qed.

(** An id that was deleted is not handed out again. *)
Example id_not_reused :
  (serve [POST_users sample.ann; DELETE_user 1; POST_users sample.bob;
          GET_users] (empty_store 5)).1
  = [mkResponse 201 (content_user (User.mk 1 "Ann" "a@x.com" (Some 5)));
     mkResponse 204 content_empty;
     mkResponse 201 (content_user (User.mk 2 "Bob" "b@x.com" (Some 5)));
     mkResponse 200 (content_users [User.mk 2 "Bob" "b@x.com" (Some 5)])].
Proof. reflexivity. Qed.

(** A body that fails validation is answered 422, also when the id of a
    [PUT] matches no record. *)
Example put_invalid_body :
  app (PUT_user 9 sample.nameless) sample.two_users
  = (mkResponse 422 (content_errors [("name"%string, string_too_short)]),
     sample.two_users).
Proof. reflexivity. Qed.

(** * Further properties of the service *)

(** ** What holds of every store the service reaches *)

(** Started on an empty table, the service only ever reaches stores in
    which the ids are pairwise distinct and lie between 1 and the counter,
    and in which every [name] and [email] has 1 to 100 characters: the
    bounds checked on the request bodies hold of everything stored. *)
Theorem reachable_store_well_formed (now : Z) (s : Store) :
  rtc step (empty_store now) s →
  0 ≤ last_id s
  ∧ NoDup (ids s)
  ∧ ∀ u, u ∈ rows s →
      1 ≤ UserModel.id u ≤ last_id s
      ∧ in_bounds (UserModel.name u) ∧ in_bounds (UserModel.email u).
Proof.
  intros Hok%store_ok_reachable.
  pose proof (proj1 (store_ok_spec s) Hok) as (H0 & _ & _ & Hnd).
  split; [done|]. split; [done|].
  intros u Hu. destruct (store_ok_row s u Hok Hu) as [Hrow Hid].
  split; [done|].
  unfold row_ok in Hrow. apply andb_true_iff in Hrow as [Hn He].
  by rewrite <- !field_ok_in_bounds.
Qed.

Lemma reachable_store_well_formed_witness :
  NoDup (ids (app (POST_users sample.bob)
                (set_clock 6 (app (POST_users sample.ann) (empty_store 5)).2)).2).
Proof.
  apply (reachable_store_well_formed 5).
  eapply rtc_l; [apply (step_request (POST_users sample.ann))|].
  eapply rtc_l; [apply (step_clock 6)|].
  apply rtc_once, (step_request (POST_users sample.bob)).
Defined.

(** ** The list is in ascending order of id *)

Lemma StronglySorted_sublist_of {A : Type} (R : relation A) (l1 l2 : list A) :
  l1 `sublist_of` l2 → StronglySorted R l2 → StronglySorted R l1.
Proof.
  induction 1 as [|x l1 l2 Hsub IH|x l1 l2 Hsub IH];
    rewrite ?StronglySorted_cons; [done| |].
  - intros [Hall Hs]. split; [|by apply IH].
    rewrite Forall_forall in Hall. apply Forall_forall.
    intros y Hy. apply Hall. by eapply elem_of_sublist.
  - intros [_ Hs]. by apply IH.
Qed.

(** An update keeps every id where it is. *)
Lemma ids_overwritten (user_id : Z) (user_in : UserCreate.t)
    (u : UserModel.t) (l : list UserModel.t) :
  UserModel.id u = user_id →
  UserModel.id <$> map (λ r, if UserModel.has_pk user_id r
                             then overwrite user_in u else r) l
  = UserModel.id <$> l.
Proof.
  intros Hid. change (map ?f ?l) with (f <$> l).
  rewrite <- list_fmap_compose. apply list_fmap_ext.
  intros k r _. simpl. unfold UserModel.has_pk.
  destruct (Z.eqb_spec (UserModel.id r) user_id); simpl; congruence.
Qed.

Lemma ascending_app (r : Request) (s : Store) :
  store_ok s → ascending s → ascending (app r s).2.
Proof.
  intros Hok Hasc. unfold ascending, ids in *.
  destruct r as [b| |i|i b|i|].
  - rewrite app_POST_users.
    destruct (UserCreate.model_validate b) as [?|user_in]; [done|].
    simpl. rewrite fmap_app. apply StronglySorted_app_2; [|done|].
    + intros x1 x2 (u & -> & Hu)%list_elem_of_fmap ->%list_elem_of_singleton.
      destruct (store_ok_row s u Hok Hu) as [_ Hid]. simpl. lia.
    + repeat constructor.
  - by rewrite app_GET_users.
  - rewrite app_GET_user. by destruct (List.find _ _).
  - rewrite app_PUT_user.
    destruct (UserCreate.model_validate b) as [?|user_in]; [done|].
    destruct (List.find _ _) as [u|] eqn:Hfind; [|done].
    apply find_has_pk in Hfind as [_ Hid]. simpl.
    by rewrite ids_overwritten.
  - rewrite app_DELETE_user.
    destruct (List.find _ _); [|done]. simpl.
    eapply StronglySorted_sublist_of; [|exact Hasc].
    apply fmap_sublist, sublist_filter.
  - done.
Qed.

Lemma ascending_steps (s s' : Store) :
  rtc step s s' → store_ok s → ascending s → ascending s'.
Proof.
  induction 1 as [s|s s1 s' Hstep _ IH]; [done|].
  intros Hok Hasc. apply IH.
  - by eapply store_ok_step.
  - destruct Hstep as [r s|now s]; [by apply ascending_app | done].
Qed.

(** In every store reached from an empty table the rows are in ascending
    order of id: ids are handed out in increasing order and rows are kept
    in insertion order, updates and deletions do not reorder. So
    [GET /users/] lists the users by ascending id. *)
Theorem listing_ascending (now : Z) (s : Store) :
  rtc step (empty_store now) s →
  ascending s
  ∧ ∃ l, app GET_users s = (mkResponse 200 (content_users l), s)
         ∧ StronglySorted Z.lt (User.id <$> l).
Proof.
  intros Hrun.
  assert (ascending s) as Hasc.
  { eapply ascending_steps; [exact Hrun|apply store_ok_empty|constructor]. }
  split; [done|].
  exists (to_User <$> rows s). split.
  - apply app_GET_users_ok. by eapply store_ok_reachable.
  - by rewrite <- list_fmap_compose.
Qed.

Lemma listing_ascending_witness :
  ascending (app (POST_users sample.bob)
               (app (DELETE_user 1)
                  (app (POST_users sample.ann) (empty_store 5)).2).2).2.
Proof.
  apply (listing_ascending 5).
  eapply rtc_l; [apply (step_request (POST_users sample.ann))|].
  eapply rtc_l; [apply (step_request (DELETE_user 1))|].
  apply rtc_once, (step_request (POST_users sample.bob)).
Defined.

(** ** A deleted id stays deleted *)

(** Once [DELETE /users/{id}] has removed a record, no later request
    brings a record with that id back: ids are not handed out twice, and an
    update of a missing id inserts nothing. A get on the id is answered 404
    from then on. *)
Theorem deleted_id_never_returns (user_id : Z) (s s' : Store) :
  store_ok s → exists_id user_id s →
  rtc step (app (DELETE_user user_id) s).2 s' →
  ¬ exists_id user_id s'
  ∧ app (GET_user user_id) s' = (not_found, s').
Proof.
  intros Hok Hex Hrun.
  destruct (proj1 (exists_id_find _ _) Hex) as [u0 Hfind].
  rewrite app_DELETE_user, Hfind in Hrun. cbn [snd] in Hrun.
  assert (¬ exists_id user_id s') as Hgone.
  { intros (u' & Hu' & Hid').
    destruct (keeps_steps _ _ Hrun) as [_ Hkeep].
    destruct Hex as (u & Hu & Hid).
    destruct (store_ok_row s u Hok Hu) as [_ Hle].
    destruct (Hkeep u' Hu') as (u1 & Hu1 & Hid1 & _); [simpl; lia|].
    simpl in Hu1. apply list_elem_of_filter in Hu1 as [Hne _]. congruence. }
  split; [done|].
  apply not_exists_id_find in Hgone. by rewrite app_GET_user, Hgone.
Qed.

Lemma deleted_id_never_returns_witness :
  app (GET_user 1)
    (app (POST_users sample.ann) (app (DELETE_user 1) sample.two_users).2).2
  = (not_found,
     (app (POST_users sample.ann) (app (DELETE_user 1) sample.two_users).2).2).
Proof.
  apply (deleted_id_never_returns 1 sample.two_users).
  - reflexivity.
  - exists sample.ann_row. split; [left | reflexivity].
  - apply rtc_once, (step_request (POST_users sample.ann)).
Defined.

(** ** Repeating an update *)

Lemma find_has_pk_fmap (user_id : Z) (f : UserModel.t → UserModel.t)
    (l : list UserModel.t) :
  (∀ r, UserModel.has_pk user_id (f r) = UserModel.has_pk user_id r) →
  List.find (UserModel.has_pk user_id) (map f l)
  = f <$> List.find (UserModel.has_pk user_id) l.
Proof.
  intros Hf. induction l as [|r l IH]; [done|]. simpl.
  rewrite Hf. by destruct (UserModel.has_pk user_id r).
Qed.

(** [PUT /users/{id}] is idempotent: served a second time with the same
    body it gives the same answer and leaves the store the first one left,
    whatever the store and the body. *)
Theorem put_idempotent (user_id : Z) (request_body : json) (s : Store) :
  app (PUT_user user_id request_body) (app (PUT_user user_id request_body) s).2
  = app (PUT_user user_id request_body) s.
Proof.
  rewrite !app_PUT_user.
  destruct (UserCreate.model_validate request_body) as [errors|c]; [done|].
  destruct (List.find _ (rows s)) as [u|] eqn:Hfind;
    cbn [snd rows last_id clock]; [|by rewrite Hfind].
  pose proof (find_has_pk _ _ _ Hfind) as [_ Hid].
  assert (∀ r, UserModel.has_pk user_id
                 (if UserModel.has_pk user_id r then overwrite c u else r)
               = UserModel.has_pk user_id r) as Hpk.
  { intros r. destruct (UserModel.has_pk user_id r) eqn:Hr; [|done].
    unfold UserModel.has_pk. simpl. by apply Z.eqb_eq. }
  rewrite find_has_pk_fmap, Hfind by exact Hpk. simpl.
  assert (UserModel.has_pk user_id u = true) as ->
    by by apply Z.eqb_eq.
  change (overwrite c (overwrite c u)) with (overwrite c u).
  do 2 f_equal. rewrite map_map. apply map_ext.
  intros r. rewrite Hpk. by destruct (UserModel.has_pk user_id r).
Qed.

(** ** Only a successful POST, PUT or DELETE writes *)

Lemma app_unchanged_or_success (r : Request) (s : Store) :
  (app r s).2 = s ∨ writes_with r = Some (status_code (app r s).1).
Proof.
  destruct r as [b| |i|i b|i|].
  - rewrite app_POST_users.
    destruct (UserCreate.model_validate b); [by left | by right].
  - left. by rewrite app_GET_users.
  - left. rewrite app_GET_user. by destruct (List.find _ _).
  - rewrite app_PUT_user. destruct (UserCreate.model_validate b); [by left|].
    destruct (List.find _ _); [by right | by left].
  - rewrite app_DELETE_user. destruct (List.find _ _); [by right | by left].
  - by left.
Qed.

(** A request changes the store only if it is a POST answered 201, a PUT
    answered 200 or a DELETE answered 204. A GET, and every request that is
    answered with an error status (404, 422 or a server error), leaves the
    store exactly as it was: no operation fails half-way through a write. *)
Theorem only_success_writes (r : Request) (s : Store) :
  ((app r s).2 ≠ s → writes_with r = Some (status_code (app r s).1))
  ∧ (400 ≤ status_code (app r s).1 → (app r s).2 = s)
  ∧ (writes_with r = None → (app r s).2 = s).
Proof.
  destruct (app_unchanged_or_success r s) as [Heq|Hw].
  - split; [by intros []|done].
  - split; [done|]. split.
    + intros Hge. exfalso.
      remember (status_code (app r s).1) as code eqn:Hcode. clear Hcode.
      destruct r; simpl in Hw; try discriminate;
        injection Hw as Hw; lia.
    + intros Hnone. rewrite Hnone in Hw. discriminate.
Qed.

Lemma only_success_writes_witness :
  (app (PUT_user 9 sample.ann) sample.two_users).2 = sample.two_users
  ∧ (app (GET_user 1) sample.two_users).2 = sample.two_users.
Proof.
  split.
  - apply (proj1 (proj2 (only_success_writes (PUT_user 9 sample.ann)
                           sample.two_users))).
    vm_compute. discriminate.
  - apply (proj2 (proj2 (only_success_writes (GET_user 1) sample.two_users))).
    reflexivity.
Defined.

(** ** The number of records *)

Lemma filter_other_ids (user_id : Z) (l : list UserModel.t) :
  (∀ r, r ∈ l → UserModel.id r ≠ user_id) →
  filter (λ r, UserModel.id r ≠ user_id) l = l.
Proof.
  induction l as [|r l IH]; intros H; [done|].
  rewrite filter_cons_True by (apply H; left).
  f_equal. apply IH. intros r' Hr'. apply H. by right.
Qed.

Lemma length_filter_unique (l : list UserModel.t) (u : UserModel.t) :
  NoDup (UserModel.id <$> l) → u ∈ l →
  S (length (filter (λ r, UserModel.id r ≠ UserModel.id u) l)) = length l.
Proof.
  induction l as [|r l IH]; intros Hnd Hin.
  - by apply elem_of_nil in Hin.
  - simpl in Hnd. apply NoDup_cons in Hnd as [Hnotin Hnd].
    apply elem_of_cons in Hin as [->|Hin].
    + rewrite filter_cons_False by (intros H; by apply H).
      rewrite filter_other_ids; [done|].
      intros r' Hr' Heq. apply Hnotin. rewrite <- Heq.
      by apply list_elem_of_fmap_2.
    + rewrite filter_cons_True.
      * simpl. f_equal. by apply IH.
      * intros Heq. apply Hnotin. rewrite Heq.
        by apply list_elem_of_fmap_2.
Qed.

(** In a well-formed store a request answered 201 adds exactly one record,
    a request answered 204 removes exactly one, and every other request
    leaves the number of records as it is. *)
Theorem record_count (r : Request) (s : Store) :
  store_ok s →
  (status_code (app r s).1 = 201 →
   length (rows (app r s).2) = S (length (rows s)))
  ∧ (status_code (app r s).1 = 204 →
     S (length (rows (app r s).2)) = length (rows s))
  ∧ (status_code (app r s).1 ≠ 201 → status_code (app r s).1 ≠ 204 →
     length (rows (app r s).2) = length (rows s)).
Proof.
  intros Hok. destruct r as [b| |i|i b|i|].
  - rewrite app_POST_users.
    destruct (UserCreate.model_validate b); simpl;
      (split; [|split]); try done.
    intros _. rewrite length_app. simpl. lia.
  - rewrite app_GET_users_ok by done. simpl. by repeat split.
  - rewrite app_GET_user.
    destruct (List.find _ _) as [u|] eqn:Hfind; simpl; [|by repeat split].
    apply find_has_pk in Hfind as [Hu _].
    rewrite response_User_row_ok by by apply (store_ok_row s).
    simpl. by repeat split.
  - rewrite app_PUT_user.
    destruct (UserCreate.model_validate b); simpl; [by repeat split|].
    destruct (List.find _ _); simpl; [|by repeat split].
    rewrite length_map. by repeat split.
  - rewrite app_DELETE_user.
    destruct (List.find _ _) as [u|] eqn:Hfind; simpl; [|by repeat split].
    apply find_has_pk in Hfind as [Hu <-].
    apply store_ok_spec in Hok as (_ & _ & _ & Hnd).
    split; [done|]. split; [|done].
    intros _. by apply length_filter_unique.
  - simpl. by repeat split.
Qed.

Lemma record_count_witness :
  S (length (rows (app (DELETE_user 1) sample.two_users).2)) = 2%nat
  ∧ length (rows (app (POST_users sample.cy) sample.two_users).2) = 3%nat.
Proof.
  split.
  - apply (proj1 (proj2 (record_count (DELETE_user 1) sample.two_users
                           eq_refl))).
    reflexivity.
  - apply (proj1 (record_count (POST_users sample.cy) sample.two_users
                    eq_refl)).
    reflexivity.
Defined.

(** ** Which bodies are accepted *)

Lemma model_validate_iff (request_body : json) :
  (∃ c, UserCreate.model_validate request_body = inr c)
  ↔ valid_body request_body.
Proof.
  split.
  - intros [c Hv]. apply model_validate_inr in Hv as (Hn & He & Hbn & Hbe).
    by exists (UserCreate.name c), (UserCreate.email c).
  - intros (n & e & Hn & He & Hbn & Hbe).
    exists (UserCreate.mk n e). by apply model_validate_valid.
Qed.

(** A body is accepted exactly when [name] and [email] are both present,
    both strings, and both of 1 to 100 characters: [POST /users/] answers
    201 for such a body and 422 for every other one, and [PUT /users/{id}]
    answers 422 for exactly the same bodies. In particular a number, a
    boolean, [null], a list or an object in place of a string is rejected:
    nothing is converted to a string. *)
Theorem body_accepted_iff_valid (request_body : json) (s : Store) :
  (status_code (app (POST_users request_body) s).1 = 201
   ↔ valid_body request_body)
  ∧ (status_code (app (POST_users request_body) s).1 = 422
     ↔ ¬ valid_body request_body)
  ∧ (∀ user_id,
       status_code (app (PUT_user user_id request_body) s).1 = 422
       ↔ ¬ valid_body request_body)
  ∧ (∀ k v,
       k = "name"%string ∨ k = "email"%string →
       field request_body k = Some v → (∀ w, v ≠ JStr w) →
       status_code (app (POST_users request_body) s).1 = 422).
Proof.
  rewrite <- model_validate_iff.
  assert (status_code (app (POST_users request_body) s).1 = 422
          ↔ ¬ ∃ c, UserCreate.model_validate request_body = inr c) as H422.
  { rewrite app_POST_users.
    destruct (UserCreate.model_validate request_body) as [errors|c]; simpl.
    - split; [|done]. by intros _ [c Hc].
    - split; [done|]. intros H. exfalso. apply H. eauto. }
  split; [|split; [done|split]].
  - rewrite app_POST_users.
    destruct (UserCreate.model_validate request_body) as [errors|c]; simpl.
    + split; [done|]. by intros [c Hc].
    + split; [eauto|done].
  - intros user_id. rewrite <- model_validate_iff, app_PUT_user.
    destruct (UserCreate.model_validate request_body) as [errors|c]; simpl.
    + split; [|done]. by intros _ [c Hc].
    + split.
      * by destruct (List.find _ _).
      * intros H. exfalso. apply H. eauto.
  - intros k v Hk Hfield Hv. apply H422.
    intros [c (Hn & He & _)%model_validate_inr].
    destruct Hk as [-> | ->].
    + rewrite Hfield in Hn. injection Hn as ->. by eapply Hv.
    + rewrite Hfield in He. injection He as ->. by eapply Hv.
Qed.

Lemma body_accepted_iff_valid_witness :
  status_code
    (app (POST_users (JObj {[ "name"%string := JNum 7;
                              "email"%string := JStr "a@x.com" ]}))
       sample.two_users).1 = 422.
Proof.
  apply (proj2 (proj2 (proj2 (body_accepted_iff_valid _ sample.two_users)))
           "name"%string (JNum 7)).
  - left. reflexivity.
  - reflexivity.
  - intros w. discriminate.
Defined.

(** ** The status codes of each route *)



(** ** Exceptions *)



(** ** Ids outside the range of the counter *)

(** In a well-formed store an id below 1 (zero or negative) or above the
    counter names no record: get and delete are answered 404, and so is an
    update with a valid body; the store is untouched. *)
Theorem out_of_range_id_404 (user_id : Z) (s : Store) :
  store_ok s → user_id < 1 ∨ last_id s < user_id →
  ¬ exists_id user_id s
  ∧ app (GET_user user_id) s = (not_found, s)
  ∧ app (DELETE_user user_id) s = (not_found, s)
  ∧ ∀ request_body, valid_body request_body →
      app (PUT_user user_id request_body) s = (not_found, s).
Proof.
  intros Hok Hout.
  assert (¬ exists_id user_id s) as Hnone.
  { intros (u & Hu & Hid).
    destruct (store_ok_row s u Hok Hu) as [_ Hrange]. lia. }
  split; [done|]. apply not_exists_id_find in Hnone.
  rewrite app_GET_user, app_DELETE_user, Hnone.
  split; [done|]. split; [done|].
  intros request_body [c Hv]%model_validate_iff.
  by rewrite app_PUT_user, Hv, Hnone.
Qed.

Lemma out_of_range_id_404_witness :
  app (GET_user (-1)) sample.two_users = (not_found, sample.two_users)
  ∧ app (DELETE_user 0) sample.two_users = (not_found, sample.two_users).
Proof.
  split.
  - apply (out_of_range_id_404 (-1) sample.two_users); [reflexivity|].
    left. lia.
  - apply (out_of_range_id_404 0 sample.two_users); [reflexivity|].
    left. lia.
Defined.

(** ** Requests on one id leave the other ids alone *)

Lemma find_has_pk_map_other (user_id : Z) (f : UserModel.t → UserModel.t)
    (l : list UserModel.t) :
  (∀ r, if UserModel.has_pk user_id r then f r = r
        else UserModel.has_pk user_id (f r) = false) →
  List.find (UserModel.has_pk user_id) (map f l)
  = List.find (UserModel.has_pk user_id) l.
Proof.
  intros Hf. induction l as [|r l IH]; [done|]. simpl.
  specialize (Hf r).
  destruct (UserModel.has_pk user_id r) eqn:Hr.
  - by rewrite Hf, Hr.
  - by rewrite Hf.
Qed.

Lemma find_has_pk_filter_other (i j : Z) (l : list UserModel.t) :
  i ≠ j →
  List.find (UserModel.has_pk j) (filter (λ r, UserModel.id r ≠ i) l)
  = List.find (UserModel.has_pk j) l.
Proof.
  intros Hij. induction l as [|r l IH]; [done|].
  destruct (decide (UserModel.id r = i)) as [Heq|Hne].
  - rewrite filter_cons_False by (intros H; by apply H). simpl.
    unfold UserModel.has_pk at 2.
    destruct (Z.eqb_spec (UserModel.id r) j); [congruence|done].
  - rewrite filter_cons_True by done. simpl.
    by destruct (UserModel.has_pk j r).
Qed.

Lemma find_has_pk_snoc_other (j : Z) (l : list UserModel.t) (u : UserModel.t) :
  UserModel.id u ≠ j →
  List.find (UserModel.has_pk j) (l ++ [u]) = List.find (UserModel.has_pk j) l.
Proof.
  intros Hne. induction l as [|r l IH]; simpl.
  - unfold UserModel.has_pk. by destruct (Z.eqb_spec (UserModel.id u) j).
  - by destruct (UserModel.has_pk j r).
Qed.

(** An update or a deletion of one id changes nothing of what a get on
    another id returns, and a creation changes nothing of what a get
    returns on any id but the one it hands out. This holds of every store
    and every body. *)
Theorem other_ids_unaffected (i j : Z) (s : Store) :
  i ≠ j →
  (∀ request_body,
     (get_user_db j (app (PUT_user i request_body) s).2).1
     = (get_user_db j s).1)
  ∧ (get_user_db j (app (DELETE_user i) s).2).1 = (get_user_db j s).1
  ∧ (∀ request_body,
       j ≠ last_id s + 1 →
       (get_user_db j (app (POST_users request_body) s).2).1
       = (get_user_db j s).1).
Proof.
  intros Hij. split; [|split].
  - intros b. rewrite !get_user_db_eq, app_PUT_user.
    destruct (UserCreate.model_validate b) as [?|c]; [done|].
    destruct (List.find (UserModel.has_pk i) _) as [u|] eqn:Hfind; [|done].
    apply find_has_pk in Hfind as [_ Hid].
    cbn [fst snd rows]. f_equal. apply find_has_pk_map_other.
    intros r. unfold UserModel.has_pk.
    destruct (Z.eqb_spec (UserModel.id r) j) as [Hj|Hj].
    + destruct (Z.eqb_spec (UserModel.id r) i); [congruence|done].
    + destruct (Z.eqb_spec (UserModel.id r) i); [|by apply Z.eqb_neq].
      apply Z.eqb_neq. simpl. congruence.
  - rewrite !get_user_db_eq, app_DELETE_user.
    destruct (List.find (UserModel.has_pk i) _); [|done].
    cbn [fst snd rows]. f_equal. by apply find_has_pk_filter_other.
  - intros b Hj. rewrite !get_user_db_eq, app_POST_users.
    destruct (UserCreate.model_validate b) as [?|c]; [done|].
    cbn [fst snd rows]. f_equal. by apply find_has_pk_snoc_other.
Qed.

Lemma other_ids_unaffected_witness :
  (get_user_db 1 (app (DELETE_user 2) sample.two_users).2).1
  = inr (Some sample.ann_row).
Proof.
  assert (2 ≠ 1) as Hne by lia.
  exact (proj1 (proj2 (other_ids_unaffected 2 1 sample.two_users Hne))).
Defined.

(** ** Creations number the records consecutively *)

Lemma serve_cons (r : Request) (rs : list Request) (s : Store) :
  serve (r :: rs) s
  = ((app r s).1 :: (serve rs (app r s).2).1, (serve rs (app r s).2).2).
Proof.
  cbn [serve]. destruct (app r s) as [resp s1]. cbn [fst snd].
  by destruct (serve rs s1) as [resps s2].
Qed.

(** A run of creations with valid bodies, whether or not the bodies
    repeat a name or an email, is answered 201 throughout, appends one
    record per request and numbers them consecutively from the counter on:
    the ids of the store become the former ids followed by [last_id + 1],
    ..., [last_id + n]. *)
Theorem posts_number_consecutively (bodies : list json) (s : Store) :
  Forall valid_body bodies →
  let run := serve (POST_users <$> bodies) s in
  Forall (λ resp, status_code resp = 201) run.1
  ∧ ids run.2 = ids s ++ seqZ (last_id s + 1) (Z.of_nat (length bodies))
  ∧ last_id run.2 = last_id s + Z.of_nat (length bodies).
Proof.
  intros Hvalid. revert s.
  induction Hvalid as [|b bodies Hb _ IH]; intros s.
  - simpl. split; [done|]. split; [by rewrite app_nil_r | lia].
  - cbn zeta in *. rewrite fmap_cons, serve_cons. cbn [fst snd].
    destruct (IH (app (POST_users b) s).2) as (Hst & Hids & Hlast).
    apply model_validate_iff in Hb as [c Hv].
    revert Hst Hids Hlast. rewrite app_POST_users, Hv. cbn [fst snd].
    intros Hst Hids Hlast. split; [by constructor|].
    rewrite Hids, Hlast. unfold ids. cbn [rows last_id length].
    rewrite fmap_app, <- app_assoc. simpl fmap.
    split; [|lia]. f_equal.
    rewrite (seqZ_cons (last_id s + 1) (Z.of_nat (S (length bodies)))) by lia.
    simpl app. f_equal. f_equal; lia.
Qed.

Lemma posts_number_consecutively_witness :
  ids (serve (POST_users <$> [sample.ann; sample.ann; sample.bob])
         sample.two_users).2
  = [1; 2; 3; 4; 5].
Proof.
  apply (posts_number_consecutively [sample.ann; sample.ann; sample.bob]
           sample.two_users).
  repeat constructor;
    (eexists _, _; split; [reflexivity|]; split; [reflexivity|];
     unfold in_bounds; simpl; lia).
Defined.

(** ** [DEBUG] *)

(** [DEBUG] is on exactly when the variable [DEBUG] reads [True], spelled
    that way: unset, or set to [true], [1] or anything else, it is off. The
    process environment decides before the [.env] file: a [DEBUG] of the
    process that is not [True] keeps it off whatever the file says. *)
Theorem debug_only_on_True (file : settings.Path)
    (dotenv_values : settings.Path → gmap string string)
    (environ : gmap string string) :
  (settings.DEBUG file dotenv_values environ = true
   ↔ settings.variable file dotenv_values environ "DEBUG"
     = Some "True"%string)
  ∧ (∀ v, environ !! "DEBUG" = Some v → v ≠ "True"%string →
       settings.DEBUG file dotenv_values environ = false)
  ∧ (environ !! "DEBUG" = None →
     dotenv_values (settings.BASE_DIR file ++ [".env"%string]) !! "DEBUG"
     = None →
     settings.DEBUG file dotenv_values environ = false).
Proof.
  assert (settings.DEBUG file dotenv_values environ
          = String.eqb
              (default "False"%string
                 (settings.variable file dotenv_values environ "DEBUG"))
              "True") as Heq.
  { unfold settings.DEBUG, settings.getenv_default.
    rewrite os_environ_lookup.
    by destruct (settings.variable _ _ _ _). }
  rewrite Heq. unfold settings.variable. split; [|split].
  - destruct (environ !! "DEBUG") as [v|]; simpl.
    + rewrite String.eqb_eq. split; congruence.
    + destruct (dotenv_values _ !! "DEBUG") as [v|]; simpl.
      * rewrite String.eqb_eq. split; congruence.
      * split; discriminate.
  - intros v -> Hv. simpl. by apply String.eqb_neq.
  - intros -> ->. done.
Qed.

Lemma debug_only_on_True_witness :
  settings.DEBUG ["srv"; "app"; "config"; "settings.py"]%string
    (λ _, {[ "DEBUG"%string := "True"%string ]})
    {[ "DEBUG"%string := "true"%string ]}
  = false.
Proof.
  apply (proj1 (proj2 (debug_only_on_True _ _ _)) "true"%string).
  - reflexivity.
  - discriminate.
Defined.

(** ** The list and the single reads agree *)

(** On a well-formed store the two read routes tell the same story: a user
    is in the list of [GET /users/] exactly when [GET /users/{id}], for the
    id of that user, answers 200 with that very user. *)
Theorem list_get_consistent (s : Store) (u : User.t) :
  store_ok s →
  ∃ l, app GET_users s = (mkResponse 200 (content_users l), s)
       ∧ (u ∈ l
          ↔ app (GET_user (User.id u)) s
            = (mkResponse 200 (content_user u), s)).
Proof.
  intros Hok. exists (to_User <$> rows s).
  split; [by apply app_GET_users_ok|].
  rewrite app_GET_user. split.
  - intros (r & -> & Hr)%list_elem_of_fmap.
    cbn [to_User User.id]. rewrite (store_ok_find s r Hok Hr).
    by rewrite response_User_row_ok by by apply (store_ok_row s).
  - destruct (List.find _ _) as [r|] eqn:Hfind; [|discriminate].
    apply find_has_pk in Hfind as [Hr _].
    rewrite response_User_row_ok by by apply (store_ok_row s).
    intros [= <-]. by apply list_elem_of_fmap_2.
Qed.

Lemma list_get_consistent_witness :
  ∃ l, app GET_users sample.two_users
       = (mkResponse 200 (content_users l), sample.two_users)
       ∧ (User.mk 2 "Bob" "b@x.com" (Some 6) ∈ l
          ↔ app (GET_user 2) sample.two_users
            = (mkResponse 200
                 (content_user (User.mk 2 "Bob" "b@x.com" (Some 6))),
               sample.two_users)).
Proof.
  apply (list_get_consistent sample.two_users
           (User.mk 2 "Bob" "b@x.com" (Some 6))).
  reflexivity.
Defined.

(** ** The last update wins *)

(** An update with a valid body overwrites whatever an earlier update of
    the same id wrote: served after another [PUT] of that id, it gives the
    answer and leaves the store it would have given and left without the
    earlier one. Nothing of the earlier [name] and [email] survives. *)
Theorem put_last_write_wins (user_id : Z) (b1 b2 : json) (s : Store) :
  valid_body b2 →
  app (PUT_user user_id b2) (app (PUT_user user_id b1) s).2
  = app (PUT_user user_id b2) s.
Proof.
  intros [c2 Hv2]%model_validate_iff.
  rewrite (app_PUT_user user_id b1).
  destruct (UserCreate.model_validate b1) as [errors|c1]; [done|].
  destruct (List.find _ (rows s)) as [u|] eqn:Hfind; [|done].
  rewrite !app_PUT_user, Hv2, Hfind. cbn [snd rows last_id clock].
  pose proof (find_has_pk _ _ _ Hfind) as [_ Hid].
  assert (∀ r, UserModel.has_pk user_id
                 (if UserModel.has_pk user_id r then overwrite c1 u else r)
               = UserModel.has_pk user_id r) as Hpk.
  { intros r. destruct (UserModel.has_pk user_id r) eqn:Hr; [|done].
    unfold UserModel.has_pk. simpl. by apply Z.eqb_eq. }
  rewrite find_has_pk_fmap, Hfind by exact Hpk. simpl.
  assert (UserModel.has_pk user_id u = true) as ->
    by by apply Z.eqb_eq.
  change (overwrite c2 (overwrite c1 u)) with (overwrite c2 u).
  do 2 f_equal. rewrite map_map. apply map_ext.
  intros r. rewrite Hpk. by destruct (UserModel.has_pk user_id r).
Qed.

Lemma put_last_write_wins_witness :
  app (PUT_user 2 sample.cy) (app (PUT_user 2 sample.ann) sample.two_users).2
  = (mkResponse 200 (content_user (User.mk 2 "Cy" "c@x.com" (Some 6))),
     mkStore [sample.ann_row; UserModel.mk 2 "Cy" "c@x.com" 6] 2 7).
Proof.
  apply (put_last_write_wins 2 sample.ann sample.cy sample.two_users).
  exists "Cy"%string, "c@x.com"%string.
  repeat split; unfold in_bounds; simpl; lia.
Defined.
